(** * uMap import/export formatter ([umap/static/umap/js/modules/formatter.js])

    A shallow embedding of the formatter module: the geometry text resolver
    [parseTextGeom], the import adapters of the [Formatter] class
    ([fromGPX], [fromKML], [fromGeoJSON], [fromOSM], [fromCSV], [fromGeoRSS]),
    the XML helper [toDom] and the dispatcher [parse].

    JavaScript values are an inductive type, objects used as property maps
    are finite maps, exceptions and the alert / console channels are a small
    writer-and-error monad, and the promise returned by [parse] is its final
    state (pending, fulfilled or rejected).  Everything the module imports or
    reads from a global (JSON, the vendored converters, the DOM parser, the
    translation function and the alert component) is a field of [Host]. *)

From Stdlib Require Import ZArith Ascii String List Bool Floats.
From stdpp Require Import base gmap strings list fin_maps.

Set Warnings "-register-all".
Set Default Proof Using "Type".

Local Open Scope string_scope.
Local Open Scope list_scope.

(** ** JavaScript values *)

Inductive value :=
| VUndefined
| VNull
| VBool (b : bool)
| VNum (x : float)
| VStr (s : string)
| VArr (items : list value)
| VObj (fields : list (string * value)).

(** [typeof v === 'object']: objects, arrays and [null]. *)
Definition typeof_object (v : value) : bool :=
  match v with
  | VNull | VArr _ | VObj _ => true
  | VUndefined | VBool _ | VNum _ | VStr _ => false
  end.

(** ToBoolean, as used by [if (v)]. *)
Definition truthy (v : value) : bool :=
  match v with
  | VUndefined | VNull => false
  | VBool b => b
  | VNum x => negb (PrimFloat.is_zero x || PrimFloat.is_nan x)
  | VStr s => negb (String.eqb s "")
  | VArr _ | VObj _ => true
  end.

(** [v === null]. *)
Definition is_null (v : value) : bool :=
  match v with
  | VNull => true
  | _ => false
  end.

(** The number that holds an array length (exact below 2^53). *)
Definition number_of_nat (n : nat) : float :=
  PrimFloat.of_uint63 (Uint63.of_Z (Z.of_nat n)).

(** Reading a property: [obj[key]] is [undefined] when the key is absent. *)
Definition prop_get (obj : gmap string value) (key : string) : value :=
  default VUndefined (obj !! key).

(** [key.startsWith('_')]. *)
Definition startsWith_underscore (key : string) : bool :=
  match key with
  | String c _ => Ascii.eqb c "_"%char
  | EmptyString => false
  end.

(** ** The data model *)

Record Feature := {
  geometry : value;
  properties : gmap string value;
}.

(** [features] is optional because [fromGPX] guards it with [|| []]. *)
Record FeatureCollection := {
  features : option (list Feature);
}.

(** What the CSV converter hands to its callback as [err]: a single object
    [{type: 'Error', message}] or an array of row errors, each with a
    [message]. *)
Record ErrorInfo := {
  message : string;
}.

Inductive CsvError :=
| ErrorObject (e : ErrorInfo)
| ErrorArray (errs : list ErrorInfo).

(** ** Effects: exceptions, alerts and the debug console *)

Inductive exn :=
| SyntaxError
| TypeError
| HostError (what : string).

Inductive event :=
| Alert_error (msg : string) (duration : option Z)
| console_debug (err : CsvError).

Inductive completion (A : Type) :=
| Normal (a : A)
| Throw (e : exn).
Arguments Normal {A} a.
Arguments Throw {A} e.

Definition Eff (A : Type) : Type := list event * completion A.

#[global] Instance Eff_ret : MRet Eff := λ A a, ([], Normal a).

#[global] Instance Eff_bind : MBind Eff := λ A B f m,
  match m.2 with
  | Normal a => (m.1 ++ (f a).1, (f a).2)
  | Throw e => (m.1, Throw e)
  end.

#[global] Instance Eff_fmap : FMap Eff := λ A B f m, a ← m; mret (f a).

Definition lift {A} (c : completion A) : Eff A := ([], c).
Definition throw {A} (e : exn) : Eff A := ([], Throw e).
Definition emit (ev : event) : Eff unit := ([ev], Normal tt).

(** [try { body } catch { handler }]. *)
Definition try_catch {A} (body : Eff A) (handler : exn → Eff A) : Eff A :=
  match body.2 with
  | Normal a => body
  | Throw e => (body.1 ++ (handler e).1, (handler e).2)
  end.

(** A [for (const x of xs)] loop that rebuilds each element, left to right;
    an exception leaves the loop. *)
Fixpoint for_of {A B} (body : A → Eff B) (xs : list A) : Eff (list B) :=
  match xs with
  | [] => mret []
  | x :: rest =>
      y ← body x;
      ys ← for_of body rest;
      mret (y :: ys)
  end.

(** The state a promise ends in. *)
Inductive promise (A : Type) :=
| Pending
| Fulfilled (a : A)
| Rejected (e : exn).
Arguments Pending {A}.
Arguments Fulfilled {A} a.
Arguments Rejected {A} e.

(** An [async] function: the promise settles with the body's completion. *)
Definition async {A} (body : Eff A) : list event * promise A :=
  match body.2 with
  | Normal a => (body.1, Fulfilled a)
  | Throw e => (body.1, Rejected e)
  end.

(** ** The host: globals and imported modules *)

Record CsvOptions := {
  delimiter : string;
  includeLatLon : bool;
  sexagesimal : bool;
  parseLatLon : string → float;
}.

Record KmlOptions := {
  skipNullGeometry : bool;
}.

Record OsmOptions := {
  flatProperties : bool;
}.

Record Togeojson (Document : Type) := {
  gpx : Document → completion FeatureCollection;
  kml : Document → KmlOptions → completion FeatureCollection;
}.
Arguments gpx {Document} _ _.
Arguments kml {Document} _ _ _.

Record Host := {
  Document : Type;
  (* globals *)
  JSON_parse : value → completion value;
  Number_parseFloat : string → float;
  DOMParser_parseFromString : string → Document;
  querySelector_parsererror : Document → bool;
  csv2geojson : string → CsvOptions → option CsvError * option FeatureCollection;
  csvFormat : list (gmap string value) → string;
  osmtogeojson : value + Document → OsmOptions → completion FeatureCollection;
  JSON_stringify : FeatureCollection → nat → completion string;
  XMLSerializer_serializeToString : Document → string;
  (* static import *)
  translate : string → list (string * value) → string;
  (* dynamic imports: the module, or the exception the import rejects with *)
  import_betterknown : completion (value → completion value);
  import_togeojson : completion (Togeojson Document);
  import_GeoRSSToGeoJSON : completion (Document → completion FeatureCollection);
  import_togpx : completion (FeatureCollection → completion Document);
  import_tokml : completion (FeatureCollection → completion string);
}.

(** The map object the export formatters receive: its GeoJSON form and the
    features [eachFeature] visits, each with its own GeoJSON form and its
    center. *)
Record LatLng := {
  lat : float;
  lng : float;
}.

Module MapFeature.
Record t := {
  toGeoJSON : Feature;
  center : LatLng;
}.
End MapFeature.

Record Umap := {
  toGeoJSON : FeatureCollection;
  eachFeature : list MapFeature.t;
}.

(** ** String helpers *)

Definition CR : ascii := Ascii.ascii_of_nat 13.
Definition LF : ascii := Ascii.ascii_of_nat 10.

(** [str.split(/\r\n|\r|\n/)]: the pieces between line terminators, a
    carriage return followed by a line feed counting as one terminator. *)
Fixpoint split_lines (str : string) : list string :=
  match str with
  | EmptyString => [EmptyString]
  | String c rest =>
      if Ascii.eqb c LF then EmptyString :: split_lines rest
      else if Ascii.eqb c CR then
        match rest with
        | String c' rest' =>
            if Ascii.eqb c' LF then EmptyString :: split_lines rest'
            else EmptyString :: split_lines rest
        | EmptyString => EmptyString :: split_lines rest
        end
      else
        match split_lines rest with
        | line :: lines => String c line :: lines
        | [] => [String c EmptyString]
        end
  end.

(** [raw.replace(',', '.')]: only the first comma is replaced. *)
Fixpoint replace_comma (raw : string) : string :=
  match raw with
  | EmptyString => EmptyString
  | String c rest =>
      if Ascii.eqb c ","%char then String "."%char rest
      else String c (replace_comma rest)
  end.

(** ** parseTextGeom *)

Section ParseTextGeom.
Variable host : Host.

Definition parseTextGeom (geom : value) : Eff value :=
  try_catch
    (lift (JSON_parse host geom))
    (λ _,
      try_catch
        (wktToGeoJSON ← lift (import_betterknown host);
         lift (wktToGeoJSON geom))
        (λ _, mret VNull)).

End ParseTextGeom.

(** Both parsers refuse [geom]: the strict one throws, and the lenient one
    cannot be loaded, throws, or answers [null]. *)
Definition unparsable (host : Host) (geom : value) : Prop :=
  (∃ e, JSON_parse host geom = Throw e)
  ∧ match import_betterknown host with
    | Normal wktToGeoJSON =>
        wktToGeoJSON geom = Normal VNull ∨ ∃ e, wktToGeoJSON geom = Throw e
    | Throw _ => True
    end.

(** ** The Formatter class *)

(** What [parse] resolves with: nothing, a feature collection, or whatever
    [JSON.parse] produced. *)
Inductive parsed :=
| Undefined
| Collection (data : FeatureCollection)
| Json (data : value).

Definition geomFields : list string := ["geom"; "geometry"; "wkt"; "geojson"].

Definition no_geo_column : string :=
  "No geo column found: must be either `lat(itude)` and `lon(gitude)` or `geom(etry)`.".

Definition errors_during_import : string :=
  "{count} errors during import: {message}".

(** The keys a [for (const key in obj)] loop visits, here in the map's own
    order; what the loop of [fromGPX] leaves behind is the same for every
    order ([foldl_strip_property_all]). *)
Definition for_in_keys (obj : gmap string value) : list string :=
  (map_to_list obj).*1.

Module Formatter.
Section Methods.
Variable host : Host.

Definition toDom (x : string) : Eff (Document host) :=
  let doc := DOMParser_parseFromString host x in
  if querySelector_parsererror host doc
  then _ ← emit (Alert_error (translate host "Cannot parse data" []) None); mret doc
  else mret doc.

(** One turn of the [for ... in] loop of [fromGPX] (lines 58-62). *)
Definition strip_property (props : gmap string value) (key : string)
  : gmap string value :=
  if startsWith_underscore key || typeof_object (prop_get props key)
  then delete key props
  else props.

(** The body of the [for ... of] loop of [fromGPX] (lines 57-62). *)
Definition clean_feature (feature : Feature) : Feature :=
  let props := <["description" := prop_get (properties feature) "desc"]> (properties feature) in
  {| geometry := geometry feature;
     properties := foldl strip_property props (for_in_keys props) |}.

Definition fromGPX (str : string) : Eff FeatureCollection :=
  togeojson ← lift (import_togeojson host);
  doc ← toDom str;
  data ← lift (gpx togeojson doc);
  (* [data.features || []]: without [features] the loop has nothing to visit *)
  mret {| features := map clean_feature <$> features data |}.

Definition fromKML (str : string) : Eff FeatureCollection :=
  togeojson ← lift (import_togeojson host);
  doc ← toDom str;
  lift (kml togeojson doc {| skipNullGeometry := true |}).

Definition fromGeoJSON (str : string) : Eff value :=
  lift (JSON_parse host (VStr str)).

Definition fromOSM (str : string) : Eff FeatureCollection :=
  src ← try_catch
          (v ← lift (JSON_parse host (VStr str)); mret (inl v))
          (λ _, doc ← toDom str; mret (inr doc));
  lift (osmtogeojson host src {| flatProperties := true |}).

(** The options [fromCSV] passes to the converter (lines 91-96). *)
Definition csv_options : CsvOptions :=
  {| delimiter := "auto";
     includeLatLon := false;
     sexagesimal := false;
     parseLatLon := λ raw, Number_parseFloat host (replace_comma raw) |}.

(** Lines 105-106: the geometry of one feature from the column [field]. *)
Definition resolve_feature (field : string) (feature : Feature) : Eff Feature :=
  geom ← parseTextGeom host (prop_get (properties feature) field);
  mret {| geometry := geom; properties := delete field (properties feature) |}.

(** Lines 102-110: the first of [fields] that is truthy on [first] is
    resolved on every feature, and the search stops there. *)
Fixpoint scan_geomFields (fields : list string) (first : Feature)
    (feats : list Feature) : Eff (list Feature) :=
  match fields with
  | [] => mret feats
  | field :: rest =>
      if truthy (prop_get (properties first) field)
      then for_of (resolve_feature field) feats
      else scan_geomFields rest first feats
  end.

(** Lines 98-123.  [first] aliases the head of [result.features], so the
    second test of [first.geometry] reads the head of the rebuilt list. *)
Definition detect_geometry (err : option CsvError) (result : option FeatureCollection)
  : Eff (option CsvError * option FeatureCollection) :=
  match result with
  | None => mret (err, result)
  | Some data =>
      match features data with
      | None => throw TypeError
      | Some [] => mret (err, result)
      | Some ((first :: _) as feats) =>
          if is_null (geometry first) then
            feats' ← scan_geomFields geomFields first feats;
            let first' := default first (head feats') in
            let result' := Some {| features := Some feats' |} in
            if is_null (geometry first')
            then mret (Some (ErrorObject {| message := translate host no_geo_column [] |}),
                       result')
            else mret (err, result')
          else mret (err, result)
      end
  end.

(** Lines 125-133. *)
Definition error_message (err : CsvError) : Eff string :=
  match err with
  | ErrorObject e => mret (message e)
  | ErrorArray errs =>
      match errs with
      | [] => throw TypeError
      | e0 :: _ =>
          mret (translate host errors_during_import
                  [("count", VNum (number_of_nat (length errs)));
                   ("message", VStr (message e0))])
      end
  end.

(** Lines 124-140. *)
Definition report (str : string) (err : option CsvError) : Eff unit :=
  match err with
  | None => mret tt
  | Some e =>
      msg ← error_message e;
      if (length (split_lines str) <=? 2)%nat
      then emit (console_debug e)
      else emit (Alert_error msg (Some 10000%Z))
  end.

(** Lines 141-143. *)
Definition deliver {R} (callback : FeatureCollection → R)
    (result : option FeatureCollection) : Eff (option R) :=
  match result with
  | None => mret None
  | Some data =>
      match features data with
      | None => throw TypeError
      | Some [] => mret None
      | Some (_ :: _) => mret (Some (callback data))
      end
  end.

(** [fromCSV]: the converter calls the asynchronous callback once; the
    result is that callback's completion, holding what [callback] returned
    when it was called. *)
Definition fromCSV {R} (str : string) (callback : FeatureCollection → R)
  : Eff (option R) :=
  let '(err, result) := csv2geojson host str csv_options in
  '(err, result) ← detect_geometry err result;
  _ ← report str err;
  deliver callback result.

Definition fromGeoRSS (str : string) : Eff FeatureCollection :=
  GeoRSSToGeoJSON_parse ← lift (import_GeoRSSToGeoJSON host);
  doc ← toDom str;
  lift (GeoRSSToGeoJSON_parse doc).

(** [parse]: the state of the returned promise once the import has run.
    For [csv] the executor only starts [fromCSV]; the promise is resolved
    by the callback and by nothing else, and an exception inside the
    converter's asynchronous callback does not reach it. *)
Definition parse (str format : string) : list event * promise parsed :=
  if String.eqb format "csv" then
    let run := fromCSV str (λ data, data) in
    (run.1,
     match run.2 with
     | Normal (Some data) => Fulfilled (Collection data)
     | Normal None | Throw _ => Pending
     end)
  else if String.eqb format "gpx" then async (Collection <$> fromGPX str)
  else if String.eqb format "kml" then async (Collection <$> fromKML str)
  else if String.eqb format "osm" then async (Collection <$> fromOSM str)
  else if String.eqb format "georss" then async (Collection <$> fromGeoRSS str)
  else if String.eqb format "geojson" then async (Json <$> fromGeoJSON str)
  else async (mret Undefined).

(** Line 186. *)
Definition describe (feature : Feature) : Feature :=
  {| geometry := geometry feature;
     properties := <["desc" := prop_get (properties feature) "description"]>
                     (properties feature) |}.

Definition toGPX (geojson : FeatureCollection) : Eff string :=
  togpx ← lift (import_togpx host);
  feats ← match features geojson with
          | Some feats => mret (map describe feats)
          | None => throw TypeError
          end;
  gpx ← lift (togpx {| features := Some feats |});
  mret (XMLSerializer_serializeToString host gpx).

Definition toKML (geojson : FeatureCollection) : Eff string :=
  tokml ← lift (import_tokml host);
  lift (tokml geojson).

End Methods.
End Formatter.

(** ** EXPORT_FORMATS *)

Record FormatDescriptor := {
  formatter : Umap → Eff string;
  ext : string;
  filetype : string;
}.

(** Lines 38-43: the row of one feature. *)
Definition csv_row (feature : MapFeature.t) : gmap string value :=
  let row := properties (MapFeature.toGeoJSON feature) in
  let center := MapFeature.center feature in
  <["Longitude" := VNum (lng center)]>
    (<["Latitude" := VNum (lat center)]> (delete "_umap_options" row)).

Definition EXPORT_FORMATS (host : Host) : list (string * FormatDescriptor) :=
  [("geojson",
    {| formatter := λ umap, lift (JSON_stringify host (toGeoJSON umap) 2);
       ext := ".geojson";
       filetype := "application/json" |});
   ("gpx",
    {| formatter := λ umap, Formatter.toGPX host (toGeoJSON umap);
       ext := ".gpx";
       filetype := "application/gpx+xml" |});
   ("kml",
    {| formatter := λ umap, Formatter.toKML host (toGeoJSON umap);
       ext := ".kml";
       filetype := "application/vnd.google-earth.kml+xml" |});
   ("csv",
    {| formatter := λ umap, mret (csvFormat host (csv_row <$> eachFeature umap));
       ext := ".csv";
       filetype := "text/csv" |})].

(** ** Predicates of the statements *)

(** A property that the loop of [fromGPX] leaves in place: its key does not
    start with an underscore and its value is not of type [object]. *)
Definition kept (property : string * value) : Prop :=
  startsWith_underscore property.1 || typeof_object property.2 = false.

#[global] Instance kept_dec (property : string * value) : Decision (kept property).
Proof. unfold kept. apply _. Defined.

(** No bookkeeping key and no structured value. *)
Definition flat (props : gmap string value) : Prop :=
  ∀ key v, props !! key = Some v →
    startsWith_underscore key = false ∧ typeof_object v = false.

(** What the GPX converter supplies as [desc]: the text of the [desc]
    element, or nothing when the element is missing. *)
Definition desc_text_or_absent (feature : Feature) : Prop :=
  properties feature !! "desc" = None
  ∨ ∃ text, properties feature !! "desc" = Some (VStr text).

(** [c] occurs in [s]. *)
Fixpoint occurs (c : ascii) (s : string) : bool :=
  match s with
  | EmptyString => false
  | String a rest => Ascii.eqb a c || occurs c rest
  end.

(** A line: text without a carriage return or a line feed. *)
Definition is_line (s : string) : Prop :=
  occurs CR s = false ∧ occurs LF s = false.

(** ** A sample host

    A host in the spirit of a test double: each collaborator answers a
    handful of inputs the way the real one does and refuses the rest.  The
    statements below are closed at this host when they need a concrete
    import to look at. *)

Module Sample.

Definition point (lon lat : float) : value :=
  VObj [("type", VStr "Point"); ("coordinates", VArr [VNum lon; VNum lat])].

(** Text made of the given lines, separated by line feeds. *)
Fixpoint unlines (ls : list string) : string :=
  match ls with
  | [] => EmptyString
  | [l] => l
  | l :: rest => l +:+ String LF (unlines rest)
  end.

(** [JSON.parse] on a few texts; [undefined] reads as the text
    [undefined], which is not JSON. *)
Definition json_parse (text : value) : completion value :=
  match text with
  | VStr "null" => Normal VNull
  | VStr "[2.5,1.5]" => Normal (VArr [VNum 2.5%float; VNum 1.5%float])
  | _ => Throw SyntaxError
  end.

(** [betterknown.wktToGeoJSON]: one point, [null] for other text, and a
    [TypeError] for what is not text. *)
Definition wktToGeoJSON (wkt : value) : completion value :=
  match wkt with
  | VStr "POINT(2.5 1.5)" => Normal (point 2.5%float 1.5%float)
  | VStr _ => Normal VNull
  | _ => Throw TypeError
  end.

Definition row (cells : list (string * string)) : gmap string value :=
  list_to_map (prod_map id VStr <$> cells).

Definition unlocated (cells : list (string * string)) : Feature :=
  {| geometry := VNull; properties := row cells |}.

(** The features the converter makes of [no_geo_long_csv] and of
    [wkt_csv]: it found no coordinate columns, so every geometry is
    [null].  An empty cell is the empty string. *)
Definition no_geo_rows : list Feature :=
  [unlocated [("name", "A"); ("foo", "B")];
   unlocated [("name", "C"); ("foo", "D")]].

Definition wkt_rows : list Feature :=
  [unlocated [("name", "A"); ("wkt", "POINT(2.5 1.5)"); ("geojson", "x")];
   unlocated [("name", "B"); ("wkt", ""); ("geojson", "y")]].

Definition invalid_lat_lon : ErrorInfo :=
  {| message := "A row contained an invalid value for latitude or longitude" |}.

Definition blank_csv : string := "name,foo".
Definition no_geo_csv : string := unlines ["name,foo"; "A,B"].
Definition no_geo_long_csv : string := unlines ["name,foo"; "A,B"; "C,D"].
Definition wkt_csv : string :=
  unlines ["name;wkt;geojson"; "A;POINT(2.5 1.5);x"; "B;;y"].
Definition bad_row_csv : string := unlines ["lat,lon"; "x,y"].
Definition bad_rows_csv : string :=
  unlines ["name,lat,lon"; "A,1.5,2.5"; "B,x,y"; "C,,z"].

(** [csv2geojson.csv2geojson] on the texts above. *)
Definition csv (str : string) (_ : CsvOptions)
  : option CsvError * option FeatureCollection :=
  if String.eqb str blank_csv then
    (Some (ErrorObject {| message := "Could not autodetect delimiter" |}), None)
  else if String.eqb str no_geo_csv then
    (None, Some {| features := Some [unlocated [("name", "A"); ("foo", "B")]] |})
  else if String.eqb str no_geo_long_csv then
    (None, Some {| features := Some no_geo_rows |})
  else if String.eqb str wkt_csv then
    (None, Some {| features := Some wkt_rows |})
  else if String.eqb str bad_row_csv then
    (Some (ErrorArray [invalid_lat_lon]), Some {| features := Some [] |})
  else if String.eqb str bad_rows_csv then
    (Some (ErrorArray [invalid_lat_lon; invalid_lat_lon]),
     Some {| features :=
       Some [{| geometry := point 2.5%float 1.5%float;
                properties := {[ "name" := VStr "A" ]} |}] |})
  else (None, Some {| features := Some [] |}).

Definition line : value :=
  VObj [("type", VStr "LineString");
        ("coordinates", VArr [VArr [VNum 2.5%float; VNum 1.5%float];
                              VArr [VNum 3.5%float; VNum 1.5%float]])].

(** A track as the GPX converter gives it, with its bookkeeping key, its
    structured [links], and the given [desc] if any. *)
Definition track (desc : option value) : Feature :=
  let props : gmap string value :=
    {[ "name" := VStr "A"; "_gpxType" := VStr "trk";
       "links" := VArr [VObj [("href", VStr "u")]] ]} in
  {| geometry := line;
     properties := match desc with
                   | Some d => <["desc" := d]> props
                   | None => props
                   end |}.

(** The same track after [fromGPX], when its [desc] was structured. *)
Definition bare_track : Feature :=
  {| geometry := line; properties := {[ "name" := VStr "A" ]} |}.

(** A placemark as the KML converter gives it: its own [description] and a
    structured [timespan]. *)
Definition placemark : Feature :=
  {| geometry := point 2.5%float 1.5%float;
     properties := {[ "name" := VStr "A"; "description" := VStr "hello";
                      "timespan" := VObj [("begin", VStr "2020"); ("end", VStr "2021")] ]} |}.

(** [togeojson]: the text of the document picks the converted data. *)
Definition togeojson : Togeojson string :=
  {| gpx := λ doc,
       Normal {| features := Some
         (if String.eqb doc "described" then [track (Some (VStr "hello"))]
          else if String.eqb doc "null desc" then [track (Some VNull)]
          else [track None]) |};
     kml := λ doc _, Normal {| features := Some [placemark] |} |}.

Definition host : Host :=
  {| Document := string;
     JSON_parse := json_parse;
     Number_parseFloat := λ _, PrimFloat.nan;
     DOMParser_parseFromString := λ x, x;
     querySelector_parsererror := λ doc, String.eqb doc "";
     csv2geojson := csv;
     csvFormat := λ _, "";
     osmtogeojson := λ _ _, Normal {| features := Some [] |};
     JSON_stringify := λ _ _, Throw (HostError "JSON.stringify");
     XMLSerializer_serializeToString := λ doc, doc;
     translate := λ template _, template;
     import_betterknown := Normal wktToGeoJSON;
     import_togeojson := Normal togeojson;
     import_GeoRSSToGeoJSON := Normal (λ _, Normal {| features := Some [] |});
     import_togpx := Throw (HostError "geojson-to-gpx");
     import_tokml := Throw (HostError "tokml") |}.

End Sample.

(** * Properties *)

(** ** The effect monad *)

Lemma bind_normal {A B} (log : list event) (a : A) (f : A → Eff B) :
  (log, Normal a) ≫= f = (log ++ (f a).1, (f a).2).
Proof. reflexivity. Qed.

Lemma bind_throw {A B} (log : list event) (e : exn) (f : A → Eff B) :
  (log, Throw e) ≫= f = (log, Throw e).
Proof. reflexivity. Qed.

Lemma bind_pure {A B} (a : A) (f : A → Eff B) :
  ([], Normal a) ≫= f = f a.
Proof. rewrite bind_normal. by destruct (f a). Qed.

Lemma bind_mret {A B} (a : A) (f : A → Eff B) :
  mret a ≫= f = f a.
Proof. apply bind_pure. Qed.

(** Unfolds the monad's operations so that a computation on known
    completions reduces. *)
Ltac eff_unfold :=
  unfold mbind, Eff_bind, mret, Eff_ret, fmap, Eff_fmap, lift, throw, emit,
    try_catch, async in *; cbn in *.

(** A loop whose body neither throws nor logs runs to the end and pairs
    every element with what the body made of it. *)
Lemma for_of_normal {A B} (body : A → Eff B) (xs : list A) :
  (∀ x, ∃ y, body x = ([], Normal y)) →
  ∃ ys, for_of body xs = ([], Normal ys)
        ∧ Forall2 (λ x y, body x = ([], Normal y)) xs ys.
Proof.
  intros Hbody. induction xs as [|x xs IH]; cbn.
  - exists []. split; [reflexivity | constructor].
  - destruct (Hbody x) as [y Hy]. destruct IH as (ys & Hys & Hall).
    exists (y :: ys). rewrite Hy, bind_pure, Hys, bind_pure.
    split; [reflexivity | by constructor].
Qed.

(** ** Line splitting *)

Example split_lines_empty : split_lines "" = [""].
Proof. reflexivity. Qed.

Example split_lines_mixed :
  split_lines ("a" +:+ String CR (String LF ("b" +:+ String CR ("c" +:+ String LF ""))))
  = ["a"; "b"; "c"; ""].
Proof. reflexivity. Qed.

(** A text always splits into at least one piece. *)
Lemma split_lines_nonempty (str : string) : split_lines str ≠ [].
Proof.
  destruct str as [|c rest]; cbn; [done|].
  destruct (Ascii.eqb c LF); [done|].
  destruct (Ascii.eqb c CR).
  - destruct rest as [|c' rest']; [done|]. by destruct (Ascii.eqb c' LF).
  - by destruct (split_lines rest).
Qed.

(** A character that is not a line terminator adds no piece. *)
Lemma split_lines_cons_line (c : ascii) (rest : string) :
  Ascii.eqb c LF = false → Ascii.eqb c CR = false →
  length (split_lines (String c rest)) = length (split_lines rest).
Proof.
  intros Hlf Hcr. cbn. rewrite Hlf, Hcr.
  pose proof (split_lines_nonempty rest).
  by destruct (split_lines rest).
Qed.

(** ** parseTextGeom *)

(** The resolver written out: it never logs, never throws, and its value
    is decided by the strict parser first and the lenient one second. *)
Lemma parseTextGeom_eq (host : Host) (geom : value) :
  parseTextGeom host geom =
  ([], Normal
         match JSON_parse host geom with
         | Normal parsed => parsed
         | Throw _ =>
             match import_betterknown host with
             | Normal wktToGeoJSON =>
                 match wktToGeoJSON geom with
                 | Normal g => g
                 | Throw _ => VNull
                 end
             | Throw _ => VNull
             end
         end).
Proof.
  unfold parseTextGeom. eff_unfold.
  destruct (JSON_parse host geom); cbn; [reflexivity|].
  destruct (import_betterknown host) as [wkt|]; cbn; [|reflexivity].
  destruct (wkt geom); reflexivity.
Qed.

Lemma parseTextGeom_normal (host : Host) (geom : value) :
  ∃ v, parseTextGeom host geom = ([], Normal v).
Proof. rewrite parseTextGeom_eq. eauto. Qed.

(** C6. The geometry text resolver is total and never throws: for every
    input it completes normally with a value [v].  When the strict
    ([JSON.parse]) parse succeeds, [v] is the parsed value, whatever it is.
    Otherwise the lenient parser is loaded and tried: [v] is what it
    returns, and [null] when loading it or running it throws. *)
Theorem parseTextGeom_total_never_throws (host : Host) (geom : value) :
  ∃ v, parseTextGeom host geom = ([], Normal v) ∧
    match JSON_parse host geom with
    | Normal parsed => v = parsed
    | Throw _ =>
        match import_betterknown host with
        | Normal wktToGeoJSON =>
            match wktToGeoJSON geom with
            | Normal g => v = g
            | Throw _ => v = VNull
            end
        | Throw _ => v = VNull
        end
    end.
Proof.
  rewrite parseTextGeom_eq. eexists; split; [reflexivity|].
  destruct (JSON_parse host geom); [reflexivity|].
  destruct (import_betterknown host) as [wkt|]; [|reflexivity].
  destruct (wkt geom); reflexivity.
Qed.

(** ** parse *)

(** C8. For every input text and every format tag other than [geojson],
    [gpx], [kml], [csv], [osm] and [georss], the promise returned by
    [parse] is fulfilled with [undefined]; nothing is thrown and nothing is
    sent to the alert channel or the console. *)
Theorem parse_unknown_format (host : Host) (str format : string) :
  format ∉ ["geojson"; "gpx"; "kml"; "csv"; "osm"; "georss"] →
  Formatter.parse host str format = ([], Fulfilled Undefined).
Proof.
  rewrite !not_elem_of_cons. intros (Hgeojson & Hgpx & Hkml & Hcsv & Hosm & Hgeorss & _).
  unfold Formatter.parse.
  apply String.eqb_neq in Hgeojson, Hgpx, Hkml, Hcsv, Hosm, Hgeorss.
  rewrite Hcsv, Hgpx, Hkml, Hosm, Hgeorss, Hgeojson. reflexivity.
Qed.

Lemma parse_unknown_format_witness :
  Formatter.parse Sample.host "x" "shp" = ([], Fulfilled Undefined).
Proof.
  apply (parse_unknown_format Sample.host "x" "shp").
  rewrite !not_elem_of_cons. repeat split; try discriminate. apply not_elem_of_nil.
Defined.

(** ** fromCSV: the geometry column (lines 98-123) *)

Lemma resolve_feature_normal (host : Host) (field : string) (feature : Feature) :
  ∃ feature', Formatter.resolve_feature host field feature = ([], Normal feature').
Proof.
  unfold Formatter.resolve_feature.
  destruct (parseTextGeom_normal host (prop_get (properties feature) field)) as [v ->].
  rewrite bind_pure. eauto.
Qed.

Lemma resolve_feature_inv (host : Host) (field : string) (feature feature' : Feature) :
  Formatter.resolve_feature host field feature = ([], Normal feature') →
  parseTextGeom host (prop_get (properties feature) field) = ([], Normal (geometry feature'))
  ∧ properties feature' = delete field (properties feature).
Proof.
  unfold Formatter.resolve_feature.
  destruct (parseTextGeom_normal host (prop_get (properties feature) field)) as [v Hv].
  rewrite Hv, bind_pure. intros [= <-]. by split.
Qed.

(** Once a column is truthy on the first feature, the search is over: the
    loop over the features runs for that column and for no other. *)
Lemma scan_geomFields_chosen (host : Host) (before : list string) (field : string)
    (after : list string) (first : Feature) (feats : list Feature) :
  (∀ f, f ∈ before → truthy (prop_get (properties first) f) = false) →
  truthy (prop_get (properties first) field) = true →
  Formatter.scan_geomFields host (before ++ field :: after) first feats =
  for_of (Formatter.resolve_feature host field) feats.
Proof.
  intros Hbefore Hfield. induction before as [|f before IH]; cbn.
  - by rewrite Hfield.
  - rewrite (Hbefore f) by left. apply IH. intros f' Hf'. apply Hbefore. by right.
Qed.

Lemma scan_geomFields_none (host : Host) (fields : list string) (first : Feature)
    (feats : list Feature) :
  (∀ f, f ∈ fields → truthy (prop_get (properties first) f) = false) →
  Formatter.scan_geomFields host fields first feats = ([], Normal feats).
Proof.
  intros Hfields. induction fields as [|f fields IH]; cbn; [reflexivity|].
  rewrite (Hfields f) by left. apply IH. intros f' Hf'. apply Hfields. by right.
Qed.

(** The search either leaves the features alone or has resolved one column
    on all of them; it never throws and never logs. *)
Lemma scan_geomFields_cases (host : Host) (fields : list string) (first : Feature)
    (feats : list Feature) :
  Formatter.scan_geomFields host fields first feats = ([], Normal feats)
  ∧ (∀ f, f ∈ fields → truthy (prop_get (properties first) f) = false)
  ∨ ∃ field feats',
      field ∈ fields
      ∧ truthy (prop_get (properties first) field) = true
      ∧ Formatter.scan_geomFields host fields first feats = ([], Normal feats')
      ∧ Forall2 (λ ft ft', Formatter.resolve_feature host field ft = ([], Normal ft'))
          feats feats'.
Proof.
  induction fields as [|f fields IH]; cbn.
  - left. split; [reflexivity|]. intros f Hf. by apply elem_of_nil in Hf.
  - destruct (truthy (prop_get (properties first) f)) eqn:Hf.
    + right.
      destruct (for_of_normal (Formatter.resolve_feature host f) feats
                  (resolve_feature_normal host f)) as (feats' & Hrun & Hall).
      exists f, feats'. repeat split; [by left | done | done | done].
    + destruct IH as [[Hrun Hnone] | (field & feats' & Hin & Htruthy & Hrun & Hall)].
      * left. split; [done|]. intros f' [->|Hf']%elem_of_cons; [done | by apply Hnone].
      * right. exists field, feats'. repeat split; [by right | done | done | done].
Qed.

Lemma scan_geomFields_normal (host : Host) (fields : list string) (first : Feature)
    (feats : list Feature) :
  ∃ feats', Formatter.scan_geomFields host fields first feats = ([], Normal feats')
            ∧ length feats' = length feats.
Proof.
  destruct (scan_geomFields_cases host fields first feats)
    as [[Hrun _] | (field & feats' & _ & _ & Hrun & Hall)].
  - eauto.
  - exists feats'. split; [done|]. symmetry. by eapply Forall2_length.
Qed.

(** Lines 98-123 never log. *)
Lemma detect_geometry_silent (host : Host) (err : option CsvError)
    (result : option FeatureCollection) :
  (Formatter.detect_geometry host err result).1 = [].
Proof.
  unfold Formatter.detect_geometry.
  destruct result as [data|]; [|reflexivity].
  destruct (features data) as [[|first rest]|]; [reflexivity| |reflexivity].
  destruct (is_null (geometry first)); [|reflexivity].
  destruct (scan_geomFields_normal host geomFields first (first :: rest))
    as (feats' & -> & _).
  rewrite bind_pure. cbn. by destruct (is_null _).
Qed.

(** [fromCSV] is the report and the delivery of what lines 98-123 leave in
    [err] and [result]. *)
Lemma fromCSV_eq (host : Host) {R} (str : string) (callback : FeatureCollection → R)
    (err err' : option CsvError) (result result' : option FeatureCollection) :
  csv2geojson host str (Formatter.csv_options host) = (err, result) →
  (Formatter.detect_geometry host err result).2 = Normal (err', result') →
  Formatter.fromCSV host str callback =
  (_ ← Formatter.report host str err'; Formatter.deliver callback result').
Proof.
  intros Hcsv Hdetect. unfold Formatter.fromCSV. rewrite Hcsv.
  pose proof (detect_geometry_silent host err result) as Hsilent.
  destruct (Formatter.detect_geometry host err result) as [log c].
  cbn in Hsilent, Hdetect. subst log c. by rewrite bind_pure.
Qed.

(** Delivery never logs. *)
Lemma deliver_silent {R} (callback : FeatureCollection → R)
    (result : option FeatureCollection) :
  (Formatter.deliver callback result).1 = [].
Proof.
  unfold Formatter.deliver. destruct result as [data|]; [|reflexivity].
  by destruct (features data) as [[|? ?]|].
Qed.

Lemma fromCSV_log (host : Host) {R} (str : string) (callback : FeatureCollection → R)
    (err err' : option CsvError) (result result' : option FeatureCollection) :
  csv2geojson host str (Formatter.csv_options host) = (err, result) →
  (Formatter.detect_geometry host err result).2 = Normal (err', result') →
  (Formatter.fromCSV host str callback).1 = (Formatter.report host str err').1.
Proof.
  intros Hcsv Hdetect. rewrite (fromCSV_eq host str callback _ _ _ _ Hcsv Hdetect).
  pose proof (deliver_silent callback result') as Hsilent.
  destruct (Formatter.report host str err') as [log [[]|e]]; [|reflexivity].
  rewrite bind_normal. cbn. by rewrite Hsilent, app_nil_r.
Qed.

Lemma parseTextGeom_unparsable (host : Host) (geom v : value) :
  unparsable host geom →
  parseTextGeom host geom = ([], Normal v) →
  v = VNull.
Proof.
  intros [[e He] Hwkt]. rewrite parseTextGeom_eq, He. intros [= <-].
  destruct (import_betterknown host) as [wkt|]; [|reflexivity].
  by destruct Hwkt as [-> | [e' ->]].
Qed.

Lemma report_normal (host : Host) (str : string) (err : option CsvError) :
  err ≠ Some (ErrorArray []) →
  (Formatter.report host str err).2 = Normal tt.
Proof.
  intros Herr. unfold Formatter.report, Formatter.error_message.
  destruct err as [[e|[|e0 es]]|]; [| done | |reflexivity];
    rewrite bind_mret; by destruct (_ <=? _)%nat.
Qed.

Lemma deliver_some {R} (callback : FeatureCollection → R) (feats : list Feature) :
  feats ≠ [] →
  Formatter.deliver callback (Some {| features := Some feats |}) =
  ([], Normal (Some (callback {| features := Some feats |}))).
Proof. by destruct feats. Qed.

(** C5. In a CSV import whose first feature has a [null] geometry, let
    [field] be the first of [geom], [geometry], [wkt], [geojson] (in that
    order) whose value on the first feature is truthy.  Then lines 98-123
    complete normally with as many features as they were given, and for
    every feature, in order: the geometry is what the geometry text resolver
    returns on that feature's value of [field], and [field] is deleted from
    its properties whatever the resolver returned.  A feature without the
    column does not stop the loop; its geometry is [null] as soon as both
    parsers refuse [undefined].  These features are the ones handed to the
    callback (the report step throws only on an empty error array). *)
Theorem fromCSV_geometry_column (host : Host) {R} (str : string)
    (callback : FeatureCollection → R) (err : option CsvError)
    (data : FeatureCollection) (first : Feature) (rest : list Feature)
    (before : list string) (field : string) (after : list string) :
  csv2geojson host str (Formatter.csv_options host) = (err, Some data) →
  features data = Some (first :: rest) →
  geometry first = VNull →
  geomFields = before ++ field :: after →
  (∀ f, f ∈ before → truthy (prop_get (properties first) f) = false) →
  truthy (prop_get (properties first) field) = true →
  ∃ err' feats',
    Formatter.detect_geometry host err (Some data) =
      ([], Normal (err', Some {| features := Some feats' |}))
    ∧ Forall2
        (λ ft ft',
          parseTextGeom host (prop_get (properties ft) field) = ([], Normal (geometry ft'))
          ∧ properties ft' = delete field (properties ft)
          ∧ (unparsable host (prop_get (properties ft) field) → geometry ft' = VNull)
          ∧ (properties ft !! field = None → unparsable host VUndefined →
             geometry ft' = VNull))
        (first :: rest) feats'
    ∧ (err' ≠ Some (ErrorArray []) →
       (Formatter.fromCSV host str callback).2 =
       Normal (Some (callback {| features := Some feats' |}))).
Proof.
  intros Hcsv Hfeatures Hgeometry Hfields Hbefore Hfield.
  destruct (for_of_normal (Formatter.resolve_feature host field) (first :: rest)
              (resolve_feature_normal host field)) as (feats' & Hrun & Hall).
  assert (∃ err', Formatter.detect_geometry host err (Some data) =
                  ([], Normal (err', Some {| features := Some feats' |})))
    as [err' Hdetect].
  { unfold Formatter.detect_geometry.
    rewrite Hfeatures, Hgeometry, Hfields,
      (scan_geomFields_chosen host before field after) by done.
    rewrite Hrun, bind_pure. cbn. destruct (is_null _); eauto. }
  exists err', feats'. split; [done|]. split.
  - eapply Forall2_impl; [exact Hall|]. intros ft ft' Hft. cbn in Hft.
    destruct (resolve_feature_inv host field ft ft' Hft) as [Hgeom Hprops].
    repeat split; [done | done | |].
    + intros Hrefused. by eapply parseTextGeom_unparsable.
    + intros Hmissing Hrefused.
      apply (parseTextGeom_unparsable host VUndefined); [done|].
      unfold prop_get in Hgeom. by rewrite Hmissing in Hgeom.
  - intros Herr'.
    rewrite (fromCSV_eq host str callback err err' (Some data)
               (Some {| features := Some feats' |}) Hcsv) by by rewrite Hdetect.
    pose proof (report_normal host str err' Herr') as Hreport.
    destruct (Formatter.report host str err') as [log c]. cbn in Hreport. subst c.
    rewrite bind_normal, deliver_some; [reflexivity|].
    inversion Hall; by subst.
Qed.

Lemma fromCSV_geometry_column_witness :
  ∃ err' feats',
    Formatter.detect_geometry Sample.host None
      (Some {| features := Some Sample.wkt_rows |}) =
      ([], Normal (err', Some {| features := Some feats' |}))
    ∧ Forall2
        (λ ft ft',
          parseTextGeom Sample.host (prop_get (properties ft) "wkt") =
            ([], Normal (geometry ft'))
          ∧ properties ft' = delete "wkt" (properties ft)
          ∧ (unparsable Sample.host (prop_get (properties ft) "wkt") →
             geometry ft' = VNull)
          ∧ (properties ft !! "wkt" = None → unparsable Sample.host VUndefined →
             geometry ft' = VNull))
        Sample.wkt_rows feats'
    ∧ (err' ≠ Some (ErrorArray []) →
       (Formatter.fromCSV Sample.host Sample.wkt_csv (λ data, data)).2 =
       Normal (Some {| features := Some feats' |})).
Proof.
  apply (fromCSV_geometry_column Sample.host Sample.wkt_csv (λ data, data) None
           {| features := Some Sample.wkt_rows |}
           (Sample.unlocated [("name", "A"); ("wkt", "POINT(2.5 1.5)"); ("geojson", "x")])
           [Sample.unlocated [("name", "B"); ("wkt", ""); ("geojson", "y")]]
           ["geom"; "geometry"] "wkt" ["geojson"]).
  - reflexivity.
  - reflexivity.
  - reflexivity.
  - reflexivity.
  - intros f Hf.
    repeat (apply elem_of_cons in Hf as [->|Hf]; [vm_compute; reflexivity|]).
    by apply elem_of_nil in Hf.
  - vm_compute. reflexivity.
Defined.

(** C2, as the code has it.  When the first feature's geometry is [null]
    and no candidate column ([geom], [geometry], [wkt], [geojson]) that is
    present on the first feature resolves to anything but [null], lines
    98-123 replace whatever error the converter supplied by the single error
    whose message is the translated "no geo column found" text.  The
    features are kept, as many as the converter produced, and the whole
    collection is still handed to the callback. *)
Theorem fromCSV_no_geo_column (host : Host) {R} (str : string)
    (callback : FeatureCollection → R) (err : option CsvError)
    (data : FeatureCollection) (first : Feature) (rest : list Feature) :
  csv2geojson host str (Formatter.csv_options host) = (err, Some data) →
  features data = Some (first :: rest) →
  geometry first = VNull →
  (∀ field, field ∈ geomFields →
     truthy (prop_get (properties first) field) = true →
     parseTextGeom host (prop_get (properties first) field) = ([], Normal VNull)) →
  ∃ feats',
    Formatter.detect_geometry host err (Some data) =
      ([], Normal (Some (ErrorObject {| message := translate host no_geo_column [] |}),
                   Some {| features := Some feats' |}))
    ∧ length feats' = S (length rest)
    ∧ (Formatter.fromCSV host str callback).2 =
      Normal (Some (callback {| features := Some feats' |})).
Proof.
  intros Hcsv Hfeatures Hgeometry Hnone.
  assert (∃ feats', Formatter.scan_geomFields host geomFields first (first :: rest) =
                      ([], Normal feats')
                    ∧ length feats' = S (length rest)
                    ∧ is_null (geometry (default first (head feats'))) = true)
    as (feats' & Hscan & Hlength & Hnull).
  { destruct (scan_geomFields_cases host geomFields first (first :: rest))
      as [[Hrun _] | (field & feats' & Hin & Htruthy & Hrun & Hall)].
    - exists (first :: rest). cbn. by rewrite Hgeometry.
    - exists feats'. split; [done|].
      inversion Hall as [|? first' ? rest' Hfirst Hrest]; subst. cbn. split.
      + f_equal. symmetry. by eapply Forall2_length.
      + destruct (resolve_feature_inv host field first first' Hfirst) as [Hgeom _].
        rewrite (Hnone field Hin Htruthy) in Hgeom. by injection Hgeom as <-. }
  assert (Formatter.detect_geometry host err (Some data) =
            ([], Normal (Some (ErrorObject {| message := translate host no_geo_column [] |}),
                         Some {| features := Some feats' |}))) as Hdetect.
  { unfold Formatter.detect_geometry.
    rewrite Hfeatures, Hgeometry. cbn [is_null]. rewrite Hscan, bind_pure.
    cbn zeta. by rewrite Hnull. }
  exists feats'. repeat split; [done | done |].
  rewrite (fromCSV_eq host str callback err _ (Some data) _ Hcsv) by by rewrite Hdetect.
  pose proof (report_normal host str
    (Some (ErrorObject {| message := translate host no_geo_column [] |}))) as Hreport.
  destruct (Formatter.report host str _) as [log c]. cbn in Hreport.
  rewrite Hreport by done.
  rewrite bind_normal, deliver_some; [reflexivity|]. by destruct feats'.
Qed.

Lemma fromCSV_no_geo_column_witness :
  ∃ feats',
    Formatter.detect_geometry Sample.host None
      (Some {| features := Some Sample.no_geo_rows |}) =
      ([], Normal (Some (ErrorObject {| message := no_geo_column |}),
                   Some {| features := Some feats' |}))
    ∧ length feats' = 2
    ∧ (Formatter.fromCSV Sample.host Sample.no_geo_long_csv (λ data, data)).2 =
      Normal (Some {| features := Some feats' |}).
Proof.
  apply (fromCSV_no_geo_column Sample.host Sample.no_geo_long_csv (λ data, data) None
           {| features := Some Sample.no_geo_rows |}
           (Sample.unlocated [("name", "A"); ("foo", "B")])
           [Sample.unlocated [("name", "C"); ("foo", "D")]]).
  - reflexivity.
  - reflexivity.
  - reflexivity.
  - intros field Hfield.
    repeat (apply elem_of_cons in Hfield as [->|Hfield]; [vm_compute; discriminate|]).
    by apply elem_of_nil in Hfield.
Defined.

(** C2 as the claim has it fails on its last part: on a CSV with no
    coordinate column and no geometry column, the error is raised and both
    features are nevertheless delivered to the callback. *)
Lemma fromCSV_no_geo_column_delivers_counterexample :
  Formatter.fromCSV Sample.host Sample.no_geo_long_csv (λ data, data) =
    ([Alert_error no_geo_column (Some 10000%Z)],
     Normal (Some {| features := Some Sample.no_geo_rows |}))
  ∧ ¬ (∀ data feats,
         (Formatter.fromCSV Sample.host Sample.no_geo_long_csv (λ data, data)).2 =
           Normal (Some data) →
         features data = Some feats →
         length feats = 0).
Proof.
  split; [vm_compute; reflexivity|].
  intros Hzero.
  specialize (Hzero _ _ eq_refl eq_refl). discriminate Hzero.
Qed.

(** ** fromCSV: the report (lines 124-140) *)

(** C1, as the code has it.  When the error left by lines 98-123 is a
    single error object (the converter's own, or the "no geo column found"
    one), the text decides what happens to it: if it splits into more than
    two lines the message goes to the alert channel with the duration 10000,
    and if it splits into two lines or fewer the error is only written to
    the debug console and no alert is raised. *)
Theorem fromCSV_fatal_error_report (host : Host) {R} (str : string)
    (callback : FeatureCollection → R) (err : option CsvError)
    (result result' : option FeatureCollection) (e : ErrorInfo) :
  csv2geojson host str (Formatter.csv_options host) = (err, result) →
  (Formatter.detect_geometry host err result).2 =
    Normal (Some (ErrorObject e), result') →
  (Formatter.fromCSV host str callback).1 =
    if (length (split_lines str) <=? 2)%nat
    then [console_debug (ErrorObject e)]
    else [Alert_error (message e) (Some 10000%Z)].
Proof.
  intros Hcsv Hdetect.
  rewrite (fromCSV_log host str callback _ _ _ _ Hcsv Hdetect).
  unfold Formatter.report, Formatter.error_message. rewrite bind_mret.
  by destruct (_ <=? _)%nat.
Qed.

Lemma fromCSV_fatal_error_report_witness :
  (Formatter.fromCSV Sample.host Sample.no_geo_long_csv (λ data, data)).1 =
    [Alert_error no_geo_column (Some 10000%Z)].
Proof.
  apply (fromCSV_fatal_error_report Sample.host Sample.no_geo_long_csv (λ data, data)
           None
           (Some {| features := Some Sample.no_geo_rows |})
           (Some {| features := Some Sample.no_geo_rows |})
           {| message := no_geo_column |}).
  - reflexivity.
  - vm_compute. reflexivity.
Defined.

(** C1 as the claim has it fails on short texts.  A header-only CSV makes
    the converter report the single error "Could not autodetect delimiter";
    a two-line CSV without coordinates gets the "no geo column found" error.
    Both texts have at most two lines, and in both imports the error goes to
    the debug console and nothing reaches the alert channel. *)
Lemma fromCSV_fatal_error_silenced_counterexample :
  (length (split_lines Sample.blank_csv) = 1
   ∧ Formatter.fromCSV Sample.host Sample.blank_csv (λ data, data) =
     ([console_debug (ErrorObject {| message := "Could not autodetect delimiter" |})],
      Normal None))
  ∧ (length (split_lines Sample.no_geo_csv) = 2
     ∧ (Formatter.fromCSV Sample.host Sample.no_geo_csv (λ data, data)).1 =
       [console_debug (ErrorObject {| message := no_geo_column |})])
  ∧ ¬ (∃ msg duration,
         Alert_error msg duration ∈
           (Formatter.fromCSV Sample.host Sample.blank_csv (λ data, data)).1
           ++ (Formatter.fromCSV Sample.host Sample.no_geo_csv (λ data, data)).1).
Proof.
  split; [split; vm_compute; reflexivity|].
  split; [split; vm_compute; reflexivity|].
  intros (msg & duration & Hin).
  change (Alert_error msg duration ∈
            [console_debug (ErrorObject {| message := "Could not autodetect delimiter" |});
             console_debug (ErrorObject {| message := no_geo_column |})]) in Hin.
  repeat (apply elem_of_cons in Hin as [Hin|Hin]; [discriminate Hin|]).
  by apply elem_of_nil in Hin.
Qed.

(** C4. When the error left by lines 98-123 is an array of row errors with
    first element [e0]: a text that splits into two lines or fewer sends the
    error to the debug console and raises no alert; a text that splits into
    more than two lines sends to the alert channel the translation of the
    template "{count} errors during import: {message}" with the length of
    the array as [count] and the message of [e0] as [message]. *)
Theorem fromCSV_row_errors_report (host : Host) {R} (str : string)
    (callback : FeatureCollection → R) (err : option CsvError)
    (result result' : option FeatureCollection) (e0 : ErrorInfo) (es : list ErrorInfo) :
  csv2geojson host str (Formatter.csv_options host) = (err, result) →
  (Formatter.detect_geometry host err result).2 =
    Normal (Some (ErrorArray (e0 :: es)), result') →
  (Formatter.fromCSV host str callback).1 =
    if (length (split_lines str) <=? 2)%nat
    then [console_debug (ErrorArray (e0 :: es))]
    else [Alert_error
            (translate host errors_during_import
               [("count", VNum (number_of_nat (length (e0 :: es))));
                ("message", VStr (message e0))])
            (Some 10000%Z)].
Proof.
  intros Hcsv Hdetect.
  rewrite (fromCSV_log host str callback _ _ _ _ Hcsv Hdetect).
  unfold Formatter.report, Formatter.error_message. rewrite bind_mret.
  by destruct (_ <=? _)%nat.
Qed.

Lemma fromCSV_row_errors_report_witness :
  (Formatter.fromCSV Sample.host Sample.bad_row_csv (λ data, data)).1 =
    [console_debug (ErrorArray [Sample.invalid_lat_lon])]
  ∧ (Formatter.fromCSV Sample.host Sample.bad_rows_csv (λ data, data)).1 =
    [Alert_error errors_during_import (Some 10000%Z)].
Proof.
  split.
  - apply (fromCSV_row_errors_report Sample.host Sample.bad_row_csv (λ data, data)
             (Some (ErrorArray [Sample.invalid_lat_lon]))
             (Some {| features := Some [] |}) (Some {| features := Some [] |})
             Sample.invalid_lat_lon []).
    + reflexivity.
    + reflexivity.
  - apply (fromCSV_row_errors_report Sample.host Sample.bad_rows_csv (λ data, data)
             (Some (ErrorArray [Sample.invalid_lat_lon; Sample.invalid_lat_lon]))
             (Some {| features :=
                Some [{| geometry := Sample.point 2.5%float 1.5%float;
                         properties := {[ "name" := VStr "A" ]} |}] |})
             (Some {| features :=
                Some [{| geometry := Sample.point 2.5%float 1.5%float;
                         properties := {[ "name" := VStr "A" ]} |}] |})
             Sample.invalid_lat_lon [Sample.invalid_lat_lon]).
    + reflexivity.
    + reflexivity.
Defined.

(** ** fromCSV: the delivery (lines 141-143) *)

(** C9. When the converter hands over no result, or a result with no
    features, the callback is not called, whatever it is; so the promise
    that [parse] returns for the [csv] format, which only the callback
    resolves, stays pending: it is neither fulfilled (with [undefined] or
    anything else) nor rejected. *)
Theorem parse_csv_without_features_pending (host : Host) (str : string) :
  (csv2geojson host str (Formatter.csv_options host)).2 = None
  ∨ (∃ data, (csv2geojson host str (Formatter.csv_options host)).2 = Some data
             ∧ features data = Some []) →
  (∀ R (callback : FeatureCollection → R) (r : R),
     (Formatter.fromCSV host str callback).2 ≠ Normal (Some r))
  ∧ (Formatter.parse host str "csv").2 = Pending.
Proof.
  intros Hresult.
  assert (∀ R (callback : FeatureCollection → R),
            (Formatter.fromCSV host str callback).2 = Normal None
            ∨ ∃ e, (Formatter.fromCSV host str callback).2 = Throw e) as Hrun.
  { intros R callback. unfold Formatter.fromCSV.
    destruct (csv2geojson host str (Formatter.csv_options host)) as [err result].
    cbn in Hresult.
    assert (Formatter.detect_geometry host err result = ([], Normal (err, result))
            ∧ Formatter.deliver callback result = ([], Normal None)) as [-> Hdeliver].
    { destruct Hresult as [-> | (data & -> & Hfeatures)]; [done|].
      unfold Formatter.detect_geometry, Formatter.deliver. by rewrite Hfeatures. }
    rewrite bind_pure.
    destruct (Formatter.report host str err) as [log [[]|e]].
    - left. by rewrite bind_normal, Hdeliver.
    - right. exists e. by rewrite bind_throw. }
  split.
  - intros R callback r. by destruct (Hrun R callback) as [-> | [e ->]].
  - unfold Formatter.parse. cbn.
    by destruct (Hrun _ (λ data : FeatureCollection, data)) as [-> | [e ->]].
Qed.

Lemma parse_csv_without_features_pending_witness :
  (∀ R (callback : FeatureCollection → R) (r : R),
     (Formatter.fromCSV Sample.host Sample.blank_csv callback).2 ≠ Normal (Some r))
  ∧ (Formatter.parse Sample.host Sample.blank_csv "csv").2 = Pending.
Proof.
  apply (parse_csv_without_features_pending Sample.host Sample.blank_csv).
  left. reflexivity.
Defined.

(** ** fromGPX and fromKML *)

Lemma lookup_strip_property_ne (props : gmap string value) (key i : string) :
  i ≠ key → Formatter.strip_property props key !! i = props !! i.
Proof.
  intros Hne. unfold Formatter.strip_property.
  destruct (_ || _); [by rewrite lookup_delete_ne | reflexivity].
Qed.

Lemma lookup_strip_property_eq (props : gmap string value) (key : string) (v : value) :
  Formatter.strip_property props key !! key = Some v ↔
  props !! key = Some v ∧ kept (key, v).
Proof.
  unfold Formatter.strip_property, kept, prop_get. cbn.
  destruct (props !! key) as [w|] eqn:Hw; cbn.
  - destruct (startsWith_underscore key || typeof_object w) eqn:Hbad.
    + rewrite lookup_delete_eq. split; [done|]. intros [[= <-] Hkept]. congruence.
    + rewrite Hw. split; [intros [= <-]; by split | by intros [? _]].
  - destruct (_ || _); [rewrite lookup_delete_eq | rewrite Hw];
      (split; [done | by intros [? _]]).
Qed.

(** The [for ... in] loop is a filter: visiting the keys [keys] deletes,
    among them, exactly the properties that are not [kept]. *)
Lemma foldl_strip_property (keys : list string) (props : gmap string value) :
  foldl Formatter.strip_property props keys =
  filter (λ property, property.1 ∉ keys ∨ kept property) props.
Proof.
  revert props. induction keys as [|key keys IH]; intros props; cbn.
  - symmetry. apply map_filter_id. intros i x _. left. apply not_elem_of_nil.
  - rewrite IH. apply map_filter_strong_ext_1. intros i x. cbn.
    destruct (decide (i = key)) as [->|Hne].
    + rewrite lookup_strip_property_eq, not_elem_of_cons. intuition congruence.
    + rewrite lookup_strip_property_ne, not_elem_of_cons by done. tauto.
Qed.

(** The order in which the keys are visited, and visiting one twice, make
    no difference, as long as every key of the object is visited. *)
Lemma foldl_strip_property_all (keys : list string) (props : gmap string value) :
  (∀ key, is_Some (props !! key) → key ∈ keys) →
  foldl Formatter.strip_property props keys = filter kept props.
Proof.
  intros Hkeys. rewrite foldl_strip_property. apply map_filter_ext.
  intros i x Hi. cbn. split; [|by right].
  intros [Hout | Hkept]; [|done]. destruct Hout. apply Hkeys. by exists x.
Qed.

Lemma for_in_keys_all (obj : gmap string value) (key : string) :
  is_Some (obj !! key) → key ∈ for_in_keys obj.
Proof.
  intros [v Hv]. unfold for_in_keys. apply list_elem_of_fmap.
  exists (key, v). split; [reflexivity|]. by apply elem_of_map_to_list.
Qed.

Lemma clean_feature_properties (feature : Feature) :
  properties (Formatter.clean_feature feature) =
  filter kept (<["description" := prop_get (properties feature) "desc"]> (properties feature)).
Proof.
  unfold Formatter.clean_feature. cbn.
  apply foldl_strip_property_all, for_in_keys_all.
Qed.

Lemma clean_feature_flat (feature : Feature) :
  flat (properties (Formatter.clean_feature feature)).
Proof.
  intros key v. rewrite clean_feature_properties, map_lookup_filter_Some.
  unfold kept. cbn. intros [_ Hkept]. by apply orb_false_elim in Hkept.
Qed.

Lemma clean_feature_description (feature : Feature) :
  properties (Formatter.clean_feature feature) !! "description" =
  if typeof_object (prop_get (properties feature) "desc")
  then None
  else Some (prop_get (properties feature) "desc").
Proof.
  rewrite clean_feature_properties.
  destruct (typeof_object (prop_get (properties feature) "desc")) eqn:Hobject.
  - apply map_lookup_filter_None. right. intros x. rewrite lookup_insert_eq.
    intros [= <-]. unfold kept. cbn. by rewrite Hobject.
  - apply map_lookup_filter_Some. rewrite lookup_insert_eq. split; [done|].
    unfold kept. cbn. by rewrite Hobject.
Qed.

(** What [fromGPX] returns once the converter has produced [raw]. *)
Lemma fromGPX_completion (host : Host) (str : string)
    (togeojson : Togeojson (Document host)) (raw : FeatureCollection) :
  import_togeojson host = Normal togeojson →
  gpx togeojson (DOMParser_parseFromString host str) = Normal raw →
  (Formatter.fromGPX host str).2 =
  Normal {| features := map Formatter.clean_feature <$> features raw |}.
Proof.
  intros Himport Hgpx. unfold Formatter.fromGPX, Formatter.toDom.
  rewrite Himport. unfold lift. rewrite bind_pure.
  destruct (querySelector_parsererror host _); eff_unfold; by rewrite Hgpx.
Qed.

Lemma fromKML_completion (host : Host) (str : string)
    (togeojson : Togeojson (Document host)) :
  import_togeojson host = Normal togeojson →
  (Formatter.fromKML host str).2 =
  kml togeojson (DOMParser_parseFromString host str) {| skipNullGeometry := true |}.
Proof.
  intros Himport. unfold Formatter.fromKML, Formatter.toDom.
  rewrite Himport. unfold lift. rewrite bind_pure.
  destruct (querySelector_parsererror host _); eff_unfold; reflexivity.
Qed.

(** C3, as the code has it.  Only [fromGPX] post-processes.  Every feature
    it returns comes from one of the converter's, in order, with the same
    geometry; its properties hold no key that starts with an underscore and
    no value of type [object]; and reading its [description] gives the
    converter-supplied [desc] when that value is not of type [object], and
    [undefined] when it is ([description] is then deleted with [desc]).
    [fromKML] returns what the converter returned, untouched. *)
Theorem fromGPX_cleans_fromKML_passes (host : Host) (str : string)
    (togeojson : Togeojson (Document host)) (raw : FeatureCollection)
    (feats : list Feature) :
  import_togeojson host = Normal togeojson →
  gpx togeojson (DOMParser_parseFromString host str) = Normal raw →
  features raw = Some feats →
  (∃ feats',
     (Formatter.fromGPX host str).2 = Normal {| features := Some feats' |}
     ∧ Forall2
         (λ ft ft',
           geometry ft' = geometry ft
           ∧ flat (properties ft')
           ∧ prop_get (properties ft') "description" =
             if typeof_object (prop_get (properties ft) "desc")
             then VUndefined
             else prop_get (properties ft) "desc")
         feats feats')
  ∧ (Formatter.fromKML host str).2 =
    kml togeojson (DOMParser_parseFromString host str) {| skipNullGeometry := true |}.
Proof.
  intros Himport Hgpx Hfeatures. split; [|by apply fromKML_completion].
  exists (map Formatter.clean_feature feats). split.
  - rewrite (fromGPX_completion host str togeojson raw Himport Hgpx).
    by rewrite Hfeatures.
  - apply Forall2_fmap_r, Forall_Forall2_diag, Forall_forall. intros ft _.
    split; [reflexivity|]. split; [apply clean_feature_flat|].
    unfold prop_get at 1. rewrite clean_feature_description.
    by destruct (typeof_object _).
Qed.

Lemma fromGPX_cleans_fromKML_passes_witness :
  (∃ feats',
     (Formatter.fromGPX Sample.host "described").2 = Normal {| features := Some feats' |}
     ∧ Forall2
         (λ ft ft',
           geometry ft' = geometry ft
           ∧ flat (properties ft')
           ∧ prop_get (properties ft') "description" =
             if typeof_object (prop_get (properties ft) "desc")
             then VUndefined
             else prop_get (properties ft) "desc")
         [Sample.track (Some (VStr "hello"))] feats')
  ∧ (Formatter.fromKML Sample.host "described").2 =
    Normal {| features := Some [Sample.placemark] |}.
Proof.
  apply (fromGPX_cleans_fromKML_passes Sample.host "described" Sample.togeojson
           {| features := Some [Sample.track (Some (VStr "hello"))] |}).
  - reflexivity.
  - reflexivity.
  - reflexivity.
Defined.

(** C3 as the claim has it fails for KML, and for GPX on a structured
    [desc].  The placemark comes out of [fromKML] as the converter made it:
    its [description] is ["hello"] although it has no [desc], and its
    structured [timespan] is still there.  The track whose [desc] is
    [null] comes out of [fromGPX] with only its name: reading [description]
    gives [undefined], not the converter's [null]. *)
Lemma fromKML_keeps_properties_counterexample :
  ((Formatter.fromKML Sample.host "placemark").2 =
     Normal {| features := Some [Sample.placemark] |}
   ∧ prop_get (properties Sample.placemark) "description" = VStr "hello"
   ∧ prop_get (properties Sample.placemark) "desc" = VUndefined
   ∧ prop_get (properties Sample.placemark) "description" ≠
     prop_get (properties Sample.placemark) "desc"
   ∧ ¬ flat (properties Sample.placemark))
  ∧ ((Formatter.fromGPX Sample.host "null desc").2 =
       Normal {| features := Some [Sample.bare_track] |}
     ∧ prop_get (properties (Sample.track (Some VNull))) "desc" = VNull
     ∧ prop_get (properties Sample.bare_track) "description" = VUndefined
     ∧ prop_get (properties Sample.bare_track) "description" ≠
       prop_get (properties (Sample.track (Some VNull))) "desc").
Proof.
  split.
  - split; [vm_compute; reflexivity|].
    split; [vm_compute; reflexivity|].
    split; [vm_compute; reflexivity|].
    split; [vm_compute; discriminate|].
    intros Hflat.
    destruct (Hflat "timespan" (VObj [("begin", VStr "2020"); ("end", VStr "2021")]))
      as [_ Hobject];
      [vm_compute; reflexivity | discriminate Hobject].
  - split; [vm_compute; reflexivity|].
    split; [vm_compute; reflexivity|].
    split; [vm_compute; reflexivity|].
    vm_compute. discriminate.
Qed.

(** C10. In every feature returned by [fromGPX] the key [description] is
    present and holds the converter-supplied [desc]; when the converter
    supplied no [desc], [description] is still created, with the value
    [undefined], rather than omitted.  The converter's [desc] is the text of
    the GPX element or is missing. *)
Theorem fromGPX_description_present (host : Host) (str : string)
    (togeojson : Togeojson (Document host)) (raw : FeatureCollection)
    (feats : list Feature) :
  import_togeojson host = Normal togeojson →
  gpx togeojson (DOMParser_parseFromString host str) = Normal raw →
  features raw = Some feats →
  Forall desc_text_or_absent feats →
  ∃ feats',
    (Formatter.fromGPX host str).2 = Normal {| features := Some feats' |}
    ∧ Forall2
        (λ ft ft',
          properties ft' !! "description" = Some (prop_get (properties ft) "desc")
          ∧ (properties ft !! "desc" = None →
             properties ft' !! "description" = Some VUndefined))
        feats feats'.
Proof.
  intros Himport Hgpx Hfeatures Hdesc.
  exists (map Formatter.clean_feature feats). split.
  - rewrite (fromGPX_completion host str togeojson raw Himport Hgpx).
    by rewrite Hfeatures.
  - apply Forall2_fmap_r, Forall_Forall2_diag.
    eapply Forall_impl; [exact Hdesc|]. intros ft Hft. unfold compose.
    rewrite clean_feature_description. unfold prop_get.
    destruct Hft as [-> | [text ->]]; by split.
Qed.

Lemma fromGPX_description_present_witness :
  (∃ feats',
     (Formatter.fromGPX Sample.host "bare").2 = Normal {| features := Some feats' |}
     ∧ Forall2
         (λ ft ft',
           properties ft' !! "description" = Some (prop_get (properties ft) "desc")
           ∧ (properties ft !! "desc" = None →
              properties ft' !! "description" = Some VUndefined))
         [Sample.track None] feats')
  ∧ (∃ feats',
       (Formatter.fromGPX Sample.host "described").2 =
         Normal {| features := Some feats' |}
       ∧ Forall2
           (λ ft ft',
             properties ft' !! "description" = Some (prop_get (properties ft) "desc")
             ∧ (properties ft !! "desc" = None →
                properties ft' !! "description" = Some VUndefined))
           [Sample.track (Some (VStr "hello"))] feats').
Proof.
  split.
  - apply (fromGPX_description_present Sample.host "bare" Sample.togeojson
             {| features := Some [Sample.track None] |}).
    + reflexivity.
    + reflexivity.
    + reflexivity.
    + repeat constructor.
  - apply (fromGPX_description_present Sample.host "described" Sample.togeojson
             {| features := Some [Sample.track (Some (VStr "hello"))] |}).
    + reflexivity.
    + reflexivity.
    + reflexivity.
    + constructor; [|constructor]. right. by exists "hello".
Defined.

(** * Further properties *)

(** ** Line splitting, as [fromCSV] counts lines (line 134) *)

Lemma is_line_cons (c : ascii) (s : string) :
  is_line (String c s) ↔
  Ascii.eqb c CR = false ∧ Ascii.eqb c LF = false ∧ is_line s.
Proof.
  unfold is_line. cbn. rewrite !orb_false_iff. tauto.
Qed.

Lemma split_lines_line (l : string) :
  is_line l → split_lines l = [l].
Proof.
  induction l as [|c l IH]; [reflexivity|].
  intros (Hcr & Hlf & Hl)%is_line_cons. cbn. by rewrite Hlf, Hcr, IH.
Qed.

Lemma split_lines_cons_char (c : ascii) (s : string) :
  Ascii.eqb c LF = false → Ascii.eqb c CR = false →
  split_lines (String c s) =
  match split_lines s with
  | line :: lines => String c line :: lines
  | [] => [String c EmptyString]
  end.
Proof. intros Hlf Hcr. cbn. by rewrite Hlf, Hcr. Qed.

Lemma split_lines_line_sep (l sep rest : string) (pieces : list string) :
  is_line l →
  split_lines (sep +:+ rest) = EmptyString :: pieces →
  split_lines (l +:+ (sep +:+ rest)) = l :: pieces.
Proof.
  intros Hl Hsep. induction l as [|c l IH]; [exact Hsep|].
  apply is_line_cons in Hl as (Hcr & Hlf & Hl).
  change (String c l +:+ (sep +:+ rest)) with (String c (l +:+ (sep +:+ rest))).
  by rewrite split_lines_cons_char, IH.
Qed.

(** X1. The three terminators of [/\r\n|\r|\n/] each end one piece: after a
    line [l], a line feed, a carriage return followed by a line feed, and a
    carriage return not followed by a line feed all split the text into [l]
    and the pieces of what follows; the pair CR LF counts once. *)
Theorem split_lines_terminators (l rest : string) :
  is_line l →
  split_lines (l +:+ String LF rest) = l :: split_lines rest
  ∧ split_lines (l +:+ String CR (String LF rest)) = l :: split_lines rest
  ∧ (match rest with
     | String c _ => Ascii.eqb c LF = false
     | EmptyString => True
     end →
     split_lines (l +:+ String CR rest) = l :: split_lines rest).
Proof.
  intros Hl. split; [|split].
  - by apply (split_lines_line_sep l (String LF EmptyString) rest).
  - by apply (split_lines_line_sep l (String CR (String LF EmptyString)) rest).
  - intros Hrest. apply (split_lines_line_sep l (String CR EmptyString) rest); [done|].
    destruct rest as [|c rest']; [reflexivity|].
    change (split_lines (String CR (String c rest')) = EmptyString :: split_lines (String c rest')).
    cbn [split_lines]. change (Ascii.eqb CR LF) with false. change (Ascii.eqb CR CR) with true.
    cbn match. by rewrite Hrest.
Qed.

Lemma split_lines_terminators_witness :
  split_lines ("a,b" +:+ String LF "1,2") = "a,b" :: split_lines "1,2"
  ∧ split_lines ("a,b" +:+ String CR (String LF "1,2")) = "a,b" :: split_lines "1,2"
  ∧ (match "1,2" with
     | String c _ => Ascii.eqb c LF = false
     | EmptyString => True
     end →
     split_lines ("a,b" +:+ String CR "1,2") = "a,b" :: split_lines "1,2").
Proof.
  apply (split_lines_terminators "a,b" "1,2"). split; reflexivity.
Defined.

(** X2. Splitting undoes joining: a text written as one or more lines
    separated by line feeds splits back into exactly those lines, so the
    number [fromCSV] compares with 2 is the number of lines written, a
    trailing line feed counting as one more (empty) line. *)
Theorem split_lines_unlines (ls : list string) :
  ls ≠ [] →
  Forall is_line ls →
  split_lines (Sample.unlines ls) = ls.
Proof.
  intros Hne Hall. induction Hall as [|l ls Hl Hls IH]; [done|].
  destruct ls as [|l' ls']; [by apply split_lines_line|].
  change (Sample.unlines (l :: l' :: ls'))
    with (l +:+ String LF (Sample.unlines (l' :: ls'))).
  destruct (split_lines_terminators l (Sample.unlines (l' :: ls')) Hl) as [-> _].
  by rewrite IH.
Qed.

Lemma split_lines_unlines_witness :
  split_lines (Sample.unlines ["name,foo"; "A,B"; ""]) = ["name,foo"; "A,B"; ""].
Proof.
  apply (split_lines_unlines ["name,foo"; "A,B"; ""]); [done|].
  repeat constructor.
Defined.

(** X3. No piece of a split text holds a line terminator, for any text. *)
Theorem split_lines_pieces_are_lines (str : string) :
  Forall is_line (split_lines str).
Proof.
  induction str as [|c rest IH]; [by repeat constructor|].
  cbn. destruct (Ascii.eqb c LF) eqn:Hlf; [by repeat constructor|].
  destruct (Ascii.eqb c CR) eqn:Hcr.
  - destruct rest as [|c' rest']; [by repeat constructor|].
    destruct (Ascii.eqb c' LF) eqn:Hlf'; [|by repeat constructor].
    cbn in IH. rewrite Hlf' in IH. exact IH.
  - pose proof (split_lines_nonempty rest) as Hne.
    destruct (split_lines rest) as [|line lines]; [done|].
    inversion IH as [|? ? Hline Hlines]; subst.
    constructor; [|done]. by apply is_line_cons.
Qed.

(** ** The coordinate parser handed to the converter (line 95) *)

Lemma replace_comma_first (a b : string) :
  occurs ","%char a = false →
  replace_comma (a +:+ String ","%char b) = a +:+ String "."%char b.
Proof.
  induction a as [|c a IH]; [reflexivity|]. cbn [occurs].
  intros [Hc Ha]%orb_false_iff.
  change (String c a +:+ String ","%char b) with (String c (a +:+ String ","%char b)).
  change (String c a +:+ String "."%char b) with (String c (a +:+ String "."%char b)).
  cbn [replace_comma]. rewrite Hc. f_equal. by apply IH.
Qed.

Lemma replace_comma_none (raw : string) :
  occurs ","%char raw = false → replace_comma raw = raw.
Proof.
  induction raw as [|c raw IH]; [reflexivity|]. cbn.
  intros [Hc Hraw]%orb_false_iff. rewrite Hc. f_equal. by apply IH.
Qed.

(** X4. [parseLatLon] turns a decimal comma into a decimal point before
    [Number.parseFloat] reads the text, and it does so for the first comma
    only: text without a comma is read as it is, and in [a,b] with no comma
    in [a] the commas of [b] stay. *)
Theorem parseLatLon_decimal_comma (host : Host) (a b : string) :
  occurs ","%char a = false →
  parseLatLon (Formatter.csv_options host) a = Number_parseFloat host a
  ∧ parseLatLon (Formatter.csv_options host) (a +:+ String ","%char b) =
    Number_parseFloat host (a +:+ String "."%char b).
Proof.
  intros Ha. cbn. by rewrite replace_comma_none, replace_comma_first.
Qed.

Lemma parseLatLon_decimal_comma_witness :
  parseLatLon (Formatter.csv_options Sample.host) "1" = Number_parseFloat Sample.host "1"
  ∧ parseLatLon (Formatter.csv_options Sample.host) ("1" +:+ String ","%char "234,5") =
    Number_parseFloat Sample.host ("1" +:+ String "."%char "234,5").
Proof.
  apply (parseLatLon_decimal_comma Sample.host "1" "234,5"). reflexivity.
Defined.

(** ** fromCSV as a whole *)

Lemma bind_inv {A B} (m : Eff A) (f : A → Eff B) (b : B) :
  (m ≫= f).2 = Normal b → ∃ a, m.2 = Normal a ∧ (f a).2 = Normal b.
Proof.
  destruct m as [log [a|e]]; [|done]. rewrite bind_normal. cbn. eauto.
Qed.

Lemma bind_log_throw {A B} (m : Eff A) (f : A → Eff B) (e : exn) :
  m.2 = Throw e → (m ≫= f).1 = m.1.
Proof. destruct m as [log [a|e']]; [done|]. intros _. by rewrite bind_throw. Qed.

Lemma deliver_inv {R} (callback : FeatureCollection → R)
    (result : option FeatureCollection) (r : R) :
  (Formatter.deliver callback result).2 = Normal (Some r) →
  ∃ data first rest,
    result = Some data ∧ features data = Some (first :: rest) ∧ r = callback data.
Proof.
  unfold Formatter.deliver. destruct result as [data|]; [|done].
  destruct (features data) as [[|first rest]|] eqn:Hfeatures; [done| |done].
  intros [= <-]. by exists data, first, rest.
Qed.

(** What the report writes, whatever the error. *)
Lemma report_log (host : Host) (str : string) (err : option CsvError) :
  (Formatter.report host str err).1 = []
  ∨ (∃ e, (Formatter.report host str err).1 = [console_debug e]
          ∧ (length (split_lines str) ≤ 2)%nat)
  ∨ (∃ msg, (Formatter.report host str err).1 = [Alert_error msg (Some 10000%Z)]
            ∧ (2 < length (split_lines str))%nat).
Proof.
  unfold Formatter.report. destruct err as [e|]; [|by left].
  destruct (Formatter.error_message host e) as [log [msg|ex]] eqn:Hmsg.
  - assert (log = []) as ->.
    { unfold Formatter.error_message in Hmsg.
      destruct e as [?|[|? ?]]; by injection Hmsg as <-. }
    rewrite bind_pure. destruct (_ <=? _)%nat eqn:Hlines.
    + right. left. exists e. split; [done|]. by apply Nat.leb_le.
    + right. right. exists msg. split; [done|]. by apply Nat.leb_gt.
  - left. rewrite bind_throw.
    unfold Formatter.error_message in Hmsg.
    destruct e as [?|[|? ?]]; by injection Hmsg as <-.
Qed.

(** X5. Whatever the converter returns, an import of CSV writes at most one
    message: nothing, or one entry on the debug console and then the text
    has two lines or fewer, or one alert with the duration 10000 and then
    the text has more than two lines.  In particular a text of two lines or
    fewer never raises an alert. *)
Theorem fromCSV_log_shape (host : Host) {R} (str : string)
    (callback : FeatureCollection → R) :
  (Formatter.fromCSV host str callback).1 = []
  ∨ (∃ e, (Formatter.fromCSV host str callback).1 = [console_debug e]
          ∧ (length (split_lines str) ≤ 2)%nat)
  ∨ (∃ msg, (Formatter.fromCSV host str callback).1 = [Alert_error msg (Some 10000%Z)]
            ∧ (2 < length (split_lines str))%nat).
Proof.
  unfold Formatter.fromCSV.
  destruct (csv2geojson host str (Formatter.csv_options host)) as [err result].
  pose proof (detect_geometry_silent host err result) as Hsilent.
  destruct (Formatter.detect_geometry host err result) as [log [[err' result']|e]];
    cbn in Hsilent; subst log; [|by left].
  rewrite bind_pure.
  assert ((Formatter.report host str err' ≫= λ _, Formatter.deliver callback result').1
          = (Formatter.report host str err').1) as ->; [|apply report_log].
  pose proof (deliver_silent callback result') as Hdeliver.
  destruct (Formatter.report host str err') as [log [[]|e]]; [|done].
  rewrite bind_normal. cbn. by rewrite Hdeliver, app_nil_r.
Qed.

Lemma fromCSV_delivered_inv (host : Host) {R} (str : string)
    (callback : FeatureCollection → R) (r : R) :
  (Formatter.fromCSV host str callback).2 = Normal (Some r) →
  ∃ data first rest, features data = Some (first :: rest) ∧ r = callback data.
Proof.
  unfold Formatter.fromCSV.
  destruct (csv2geojson host str (Formatter.csv_options host)) as [err result].
  intros ([err' result'] & _ & Hrest)%bind_inv.
  apply bind_inv in Hrest as (_ & _ & Hdeliver).
  apply deliver_inv in Hdeliver as (data & first & rest & _ & Hfeatures & ->).
  by exists data, first, rest.
Qed.

(** X6. The promise [parse] returns for [csv] has two possible ends: it
    stays pending, or it is fulfilled with a feature collection that holds
    at least one feature.  It is never rejected, whatever the converter
    reports and even when the converter's callback throws, and it is never
    fulfilled with [undefined] or with an empty collection. *)
Theorem parse_csv_outcomes (host : Host) (str : string) :
  (Formatter.parse host str "csv").2 = Pending
  ∨ ∃ data first rest,
      (Formatter.parse host str "csv").2 = Fulfilled (Collection data)
      ∧ features data = Some (first :: rest).
Proof.
  unfold Formatter.parse. cbn.
  destruct (Formatter.fromCSV host str (λ data, data)).2 as [[data|]|e] eqn:Hrun;
    [|by left|by left].
  right. apply fromCSV_delivered_inv in Hrun as (data' & first & rest & Hfeatures & ->).
  by exists data', first, rest.
Qed.

(** X7. When the first feature has a geometry, the converter's batch is
    accepted as it is: lines 98-123 change neither the error nor any
    feature (no candidate column is read, even on features whose geometry is
    [null]), the report is the report of the converter's own error, and the
    callback receives the converter's collection. *)
Theorem fromCSV_located_batch_untouched (host : Host) {R} (str : string)
    (callback : FeatureCollection → R) (err : option CsvError)
    (data : FeatureCollection) (first : Feature) (rest : list Feature) :
  csv2geojson host str (Formatter.csv_options host) = (err, Some data) →
  features data = Some (first :: rest) →
  is_null (geometry first) = false →
  Formatter.detect_geometry host err (Some data) = ([], Normal (err, Some data))
  ∧ (Formatter.fromCSV host str callback).1 = (Formatter.report host str err).1
  ∧ (err ≠ Some (ErrorArray []) →
     (Formatter.fromCSV host str callback).2 = Normal (Some (callback data))).
Proof.
  intros Hcsv Hfeatures Hgeometry.
  assert (Formatter.detect_geometry host err (Some data) = ([], Normal (err, Some data)))
    as Hdetect.
  { unfold Formatter.detect_geometry. by rewrite Hfeatures, Hgeometry. }
  split; [done|]. split.
  - apply (fromCSV_log host str callback err err (Some data) (Some data) Hcsv).
    by rewrite Hdetect.
  - intros Herr.
    rewrite (fromCSV_eq host str callback err err (Some data) (Some data) Hcsv)
      by by rewrite Hdetect.
    pose proof (report_normal host str err Herr) as Hreport.
    destruct (Formatter.report host str err) as [log c]. cbn in Hreport. subst c.
    rewrite bind_normal. unfold Formatter.deliver. by rewrite Hfeatures.
Qed.

Lemma fromCSV_located_batch_untouched_witness :
  Formatter.detect_geometry Sample.host
    (Some (ErrorArray [Sample.invalid_lat_lon; Sample.invalid_lat_lon]))
    (Some {| features := Some [{| geometry := Sample.point 2.5%float 1.5%float;
                                  properties := {[ "name" := VStr "A" ]} |}] |})
  = ([], Normal (Some (ErrorArray [Sample.invalid_lat_lon; Sample.invalid_lat_lon]),
                 Some {| features := Some [{| geometry := Sample.point 2.5%float 1.5%float;
                                              properties := {[ "name" := VStr "A" ]} |}] |}))
  ∧ (Formatter.fromCSV Sample.host Sample.bad_rows_csv (λ data, data)).1 =
    (Formatter.report Sample.host Sample.bad_rows_csv
       (Some (ErrorArray [Sample.invalid_lat_lon; Sample.invalid_lat_lon]))).1
  ∧ (Some (ErrorArray [Sample.invalid_lat_lon; Sample.invalid_lat_lon])
       ≠ Some (ErrorArray []) →
     (Formatter.fromCSV Sample.host Sample.bad_rows_csv (λ data, data)).2 =
     Normal (Some {| features := Some [{| geometry := Sample.point 2.5%float 1.5%float;
                                          properties := {[ "name" := VStr "A" ]} |}] |})).
Proof.
  apply (fromCSV_located_batch_untouched Sample.host Sample.bad_rows_csv (λ data, data)
           (Some (ErrorArray [Sample.invalid_lat_lon; Sample.invalid_lat_lon]))
           {| features := Some [{| geometry := Sample.point 2.5%float 1.5%float;
                                   properties := {[ "name" := VStr "A" ]} |}] |}
           {| geometry := Sample.point 2.5%float 1.5%float;
              properties := {[ "name" := VStr "A" ]} |} []).
  - reflexivity.
  - reflexivity.
  - reflexivity.
Defined.

(** X8. Lines 98-123 never clear an error: the error they leave is the
    converter's own or the "no geo column found" one.  They throw only a
    [TypeError], and only when the result has no [features] to take the
    length of. *)
Theorem detect_geometry_error (host : Host) (err : option CsvError)
    (result : option FeatureCollection) :
  match (Formatter.detect_geometry host err result).2 with
  | Normal (err', _) =>
      err' = err
      ∨ err' = Some (ErrorObject {| message := translate host no_geo_column [] |})
  | Throw e =>
      e = TypeError ∧ ∃ data, result = Some data ∧ features data = None
  end.
Proof.
  unfold Formatter.detect_geometry. destruct result as [data|]; [|by left].
  destruct (features data) as [[|first rest]|] eqn:Hfeatures; cbv beta iota.
  - by left.
  - destruct (is_null (geometry first)); [|by left].
    destruct (scan_geomFields_normal host geomFields first (first :: rest))
      as (feats' & -> & _).
    rewrite bind_pure. cbn zeta. destruct (is_null _); cbn; [by right | by left].
  - cbn. split; [done|]. by exists data.
Qed.

(** X9. Lines 98-123 keep the features in number and in order, never add a
    property, and remove at most one key, the same candidate column on every
    feature; when no key is removed, no geometry is changed either. *)
Theorem detect_geometry_features (host : Host) (err : option CsvError)
    (data : FeatureCollection) (feats : list Feature) :
  features data = Some feats →
  ∃ err' feats' (removed : option string),
    Formatter.detect_geometry host err (Some data) =
      ([], Normal (err', Some {| features := Some feats' |}))
    ∧ (∀ f, removed = Some f → f ∈ geomFields)
    ∧ Forall2
        (λ ft ft',
          properties ft' = match removed with
                           | Some f => delete f (properties ft)
                           | None => properties ft
                           end
          ∧ (removed = None → geometry ft' = geometry ft))
        feats feats'.
Proof.
  intros Hfeatures.
  assert (Forall2 (λ ft ft' : Feature,
                     properties ft' = properties ft
                     ∧ (@None string = None → geometry ft' = geometry ft)) feats feats)
    as Hsame by by apply Forall_Forall2_diag, Forall_forall.
  assert (Some data = Some {| features := Some feats |}) as Hdata
    by (destruct data; cbn in Hfeatures; by subst).
  unfold Formatter.detect_geometry. rewrite Hfeatures.
  destruct feats as [|first rest].
  { exists err, [], None. by rewrite Hdata. }
  cbv beta iota.
  destruct (is_null (geometry first)).
  2:{ exists err, (first :: rest), None. by rewrite Hdata. }
  destruct (scan_geomFields_cases host geomFields first (first :: rest))
    as [[Hrun _] | (field & feats' & Hin & _ & Hrun & Hall)];
    rewrite Hrun, bind_pure; cbn zeta.
  - destruct (is_null _); eexists _, (first :: rest), None; by repeat split.
  - destruct (is_null _); eexists _, feats', (Some field);
      (split; [reflexivity|]); (split; [by intros f [= <-]|]);
      (eapply Forall2_impl; [exact Hall|]); intros ft ft' Hft; cbn in Hft;
      destruct (resolve_feature_inv host field ft ft' Hft) as [_ Hprops]; by split.
Qed.

Lemma detect_geometry_features_witness :
  ∃ err' feats' (removed : option string),
    Formatter.detect_geometry Sample.host None (Some {| features := Some Sample.wkt_rows |}) =
      ([], Normal (err', Some {| features := Some feats' |}))
    ∧ (∀ f, removed = Some f → f ∈ geomFields)
    ∧ Forall2
        (λ ft ft',
          properties ft' = match removed with
                           | Some f => delete f (properties ft)
                           | None => properties ft
                           end
          ∧ (removed = None → geometry ft' = geometry ft))
        Sample.wkt_rows feats'.
Proof.
  apply (detect_geometry_features Sample.host None {| features := Some Sample.wkt_rows |}).
  reflexivity.
Defined.

(** X10. Errors and data do not exclude each other: when lines 98-123 leave
    both an error (not an empty array) and at least one feature, the same
    import reports the error (on a text of more than two lines, as an
    alert) and hands the collection to the callback. *)
Theorem fromCSV_partial_success (host : Host) {R} (str : string)
    (callback : FeatureCollection → R) (err : option CsvError)
    (result : option FeatureCollection) (e : CsvError) (data' : FeatureCollection)
    (first : Feature) (rest : list Feature) :
  csv2geojson host str (Formatter.csv_options host) = (err, result) →
  (Formatter.detect_geometry host err result).2 = Normal (Some e, Some data') →
  e ≠ ErrorArray [] →
  features data' = Some (first :: rest) →
  (Formatter.fromCSV host str callback).2 = Normal (Some (callback data'))
  ∧ ((length (split_lines str) ≤ 2)%nat →
     (Formatter.fromCSV host str callback).1 = [console_debug e])
  ∧ ((2 < length (split_lines str))%nat →
     ∃ msg, (Formatter.fromCSV host str callback).1 = [Alert_error msg (Some 10000%Z)]).
Proof.
  intros Hcsv Hdetect He Hfeatures.
  rewrite (fromCSV_log host str callback _ _ _ _ Hcsv Hdetect),
    (fromCSV_eq host str callback _ _ _ _ Hcsv Hdetect).
  assert (∃ msg, Formatter.error_message host e = ([], Normal msg)) as [msg Hmsg].
  { unfold Formatter.error_message. destruct e as [?|[|? ?]]; [eauto | done | eauto]. }
  unfold Formatter.report. rewrite Hmsg, bind_pure.
  assert (Formatter.deliver callback (Some data') = ([], Normal (Some (callback data'))))
    as Hdeliver by (unfold Formatter.deliver; by rewrite Hfeatures).
  destruct (_ <=? _)%nat eqn:Hlines; unfold emit; rewrite bind_normal, Hdeliver; cbn.
  - apply Nat.leb_le in Hlines.
    split; [done|]. split; [done|]. intros ?. lia.
  - apply Nat.leb_gt in Hlines.
    split; [done|]. split; [intros ?; lia|]. intros _. by exists msg.
Qed.

Lemma fromCSV_partial_success_witness :
  (Formatter.fromCSV Sample.host Sample.bad_rows_csv (λ data, data)).2 =
    Normal (Some {| features := Some [{| geometry := Sample.point 2.5%float 1.5%float;
                                         properties := {[ "name" := VStr "A" ]} |}] |})
  ∧ ((length (split_lines Sample.bad_rows_csv) ≤ 2)%nat →
     (Formatter.fromCSV Sample.host Sample.bad_rows_csv (λ data, data)).1 =
       [console_debug (ErrorArray [Sample.invalid_lat_lon; Sample.invalid_lat_lon])])
  ∧ ((2 < length (split_lines Sample.bad_rows_csv))%nat →
     ∃ msg, (Formatter.fromCSV Sample.host Sample.bad_rows_csv (λ data, data)).1 =
              [Alert_error msg (Some 10000%Z)]).
Proof.
  apply (fromCSV_partial_success Sample.host Sample.bad_rows_csv (λ data, data)
           (Some (ErrorArray [Sample.invalid_lat_lon; Sample.invalid_lat_lon]))
           (Some {| features := Some [{| geometry := Sample.point 2.5%float 1.5%float;
                                         properties := {[ "name" := VStr "A" ]} |}] |})
           (ErrorArray [Sample.invalid_lat_lon; Sample.invalid_lat_lon])
           {| features := Some [{| geometry := Sample.point 2.5%float 1.5%float;
                                   properties := {[ "name" := VStr "A" ]} |}] |}
           {| geometry := Sample.point 2.5%float 1.5%float;
              properties := {[ "name" := VStr "A" ]} |} []).
  - reflexivity.
  - reflexivity.
  - discriminate.
  - reflexivity.
Defined.

(** X11. Only the first feature decides whether a candidate column is used.
    When its geometry is [null] and none of [geom], [geometry], [wkt],
    [geojson] is truthy on it (absent, or an empty cell), no feature is
    touched: every other row keeps its geometry and its columns, unparsed,
    the error becomes the "no geo column found" one, and the callback
    receives the converter's features as they were. *)
Theorem fromCSV_first_row_decides (host : Host) {R} (str : string)
    (callback : FeatureCollection → R) (err : option CsvError)
    (data : FeatureCollection) (first : Feature) (rest : list Feature) :
  csv2geojson host str (Formatter.csv_options host) = (err, Some data) →
  features data = Some (first :: rest) →
  geometry first = VNull →
  (∀ f, f ∈ geomFields → truthy (prop_get (properties first) f) = false) →
  Formatter.detect_geometry host err (Some data) =
    ([], Normal (Some (ErrorObject {| message := translate host no_geo_column [] |}),
                 Some {| features := Some (first :: rest) |}))
  ∧ (Formatter.fromCSV host str callback).2 =
    Normal (Some (callback {| features := Some (first :: rest) |})).
Proof.
  intros Hcsv Hfeatures Hgeometry Hnone.
  assert (Formatter.detect_geometry host err (Some data) =
            ([], Normal (Some (ErrorObject {| message := translate host no_geo_column [] |}),
                         Some {| features := Some (first :: rest) |}))) as Hdetect.
  { unfold Formatter.detect_geometry.
    rewrite Hfeatures, Hgeometry. cbn [is_null].
    rewrite (scan_geomFields_none host geomFields first (first :: rest) Hnone), bind_pure.
    cbn. by rewrite Hgeometry. }
  split; [done|].
  rewrite (fromCSV_eq host str callback err _ (Some data) _ Hcsv) by by rewrite Hdetect.
  unfold Formatter.report, Formatter.error_message. rewrite bind_mret.
  by destruct (_ <=? _)%nat.
Qed.

Lemma fromCSV_first_row_decides_witness :
  Formatter.detect_geometry Sample.host None (Some {| features := Some Sample.no_geo_rows |}) =
    ([], Normal (Some (ErrorObject {| message := no_geo_column |}),
                 Some {| features := Some Sample.no_geo_rows |}))
  ∧ (Formatter.fromCSV Sample.host Sample.no_geo_long_csv (λ data, data)).2 =
    Normal (Some {| features := Some Sample.no_geo_rows |}).
Proof.
  apply (fromCSV_first_row_decides Sample.host Sample.no_geo_long_csv (λ data, data) None
           {| features := Some Sample.no_geo_rows |}
           (Sample.unlocated [("name", "A"); ("foo", "B")])
           [Sample.unlocated [("name", "C"); ("foo", "D")]]).
  - reflexivity.
  - reflexivity.
  - reflexivity.
  - intros f Hf.
    repeat (apply elem_of_cons in Hf as [->|Hf]; [vm_compute; reflexivity|]).
    by apply elem_of_nil in Hf.
Defined.

(** ** parse and the adapters other than CSV *)

(** X12. For the formats [gpx], [kml], [osm] and [georss] the promise
    returned by [parse] settles as the adapter of that format completes: it
    is fulfilled with the collection the adapter returned, or rejected with
    the exception the adapter threw, and what [parse] logs is what the
    adapter logged.  The promise is never left pending and never fulfilled
    with [undefined]. *)
Theorem parse_settles_with_adapter (host : Host) (str : string) :
  let settle (run : Eff FeatureCollection) : list event * promise parsed :=
    (run.1,
     match run.2 with
     | Normal data => Fulfilled (Collection data)
     | Throw e => Rejected e
     end) in
  Formatter.parse host str "gpx" = settle (Formatter.fromGPX host str)
  ∧ Formatter.parse host str "kml" = settle (Formatter.fromKML host str)
  ∧ Formatter.parse host str "osm" = settle (Formatter.fromOSM host str)
  ∧ Formatter.parse host str "georss" = settle (Formatter.fromGeoRSS host str).
Proof.
  cbv zeta. unfold Formatter.parse. cbn [String.eqb Ascii.eqb Bool.eqb].
  split; [|split; [|split]].
  - destruct (Formatter.fromGPX host str) as [log [data|e]]; cbn;
      by rewrite ?app_nil_r.
  - destruct (Formatter.fromKML host str) as [log [data|e]]; cbn;
      by rewrite ?app_nil_r.
  - destruct (Formatter.fromOSM host str) as [log [data|e]]; cbn;
      by rewrite ?app_nil_r.
  - destruct (Formatter.fromGeoRSS host str) as [log [data|e]]; cbn;
      by rewrite ?app_nil_r.
Qed.

(** X13. Text that is not JSON makes [parse] reject for the [geojson]
    format with the exception [JSON.parse] threw, and nothing is sent to the
    alert channel; text that is JSON fulfils the promise with the parsed
    value as it is, whatever its shape. *)
Theorem parse_geojson (host : Host) (str : string) :
  Formatter.parse host str "geojson" =
  ([], match JSON_parse host (VStr str) with
       | Normal data => Fulfilled (Json data)
       | Throw e => Rejected e
       end).
Proof.
  unfold Formatter.parse, Formatter.fromGeoJSON. cbn [String.eqb Ascii.eqb Bool.eqb].
  by destruct (JSON_parse host (VStr str)).
Qed.

(** What [toDom] does, written out. *)
Lemma toDom_eq (host : Host) (x : string) :
  Formatter.toDom host x =
  (if querySelector_parsererror host (DOMParser_parseFromString host x)
   then [Alert_error (translate host "Cannot parse data" []) None]
   else [],
   Normal (DOMParser_parseFromString host x)).
Proof. unfold Formatter.toDom. by destruct (querySelector_parsererror host _). Qed.

(** X14. A document with a parser error is reported and still converted:
    [fromKML], [fromGeoRSS] and [fromGPX] send one alert "Cannot parse
    data", without a duration, and hand the document to the converter all
    the same, so the outcome is the converter's.  When the converter module
    cannot be loaded the adapter rejects with the import's exception before
    the text is parsed, and nothing is alerted. *)
Theorem xml_adapters_report_and_convert (host : Host) (str : string) :
  let doc := DOMParser_parseFromString host str in
  let alert :=
    if querySelector_parsererror host doc
    then [Alert_error (translate host "Cannot parse data" []) None]
    else [] in
  Formatter.fromKML host str =
    match import_togeojson host with
    | Normal togeojson => (alert, kml togeojson doc {| skipNullGeometry := true |})
    | Throw e => ([], Throw e)
    end
  ∧ Formatter.fromGeoRSS host str =
    match import_GeoRSSToGeoJSON host with
    | Normal GeoRSSToGeoJSON_parse => (alert, GeoRSSToGeoJSON_parse doc)
    | Throw e => ([], Throw e)
    end
  ∧ Formatter.fromGPX host str =
    match import_togeojson host with
    | Normal togeojson =>
        (alert,
         match gpx togeojson doc with
         | Normal data =>
             Normal {| features := map (Formatter.clean_feature) <$> features data |}
         | Throw e => Throw e
         end)
    | Throw e => ([], Throw e)
    end.
Proof.
  cbv zeta.
  unfold Formatter.fromKML, Formatter.fromGeoRSS, Formatter.fromGPX.
  rewrite !toDom_eq. unfold lift. repeat split.
  - destruct (import_togeojson host) as [togeojson|e]; [|reflexivity].
    rewrite bind_pure, bind_normal. cbn. by rewrite app_nil_r.
  - destruct (import_GeoRSSToGeoJSON host) as [convert|e]; [|reflexivity].
    rewrite bind_pure, bind_normal. cbn. by rewrite app_nil_r.
  - destruct (import_togeojson host) as [togeojson|e]; [|reflexivity].
    rewrite bind_pure, bind_normal. cbn.
    destruct (gpx togeojson _); cbn; by rewrite ?app_nil_r.
Qed.

(** X15. [fromOSM] tries JSON first and XML second.  When the text is JSON
    the converter receives the parsed value and no document is built, so
    nothing is alerted; when [JSON.parse] throws, its exception is dropped,
    the text is parsed as XML (with the alert of a parser error, if any)
    and the converter receives the document.  Either way the outcome is the
    converter's. *)
Theorem fromOSM_json_then_xml (host : Host) (str : string) :
  Formatter.fromOSM host str =
  match JSON_parse host (VStr str) with
  | Normal src => ([], osmtogeojson host (inl src) {| flatProperties := true |})
  | Throw _ =>
      (if querySelector_parsererror host (DOMParser_parseFromString host str)
       then [Alert_error (translate host "Cannot parse data" []) None]
       else [],
       osmtogeojson host (inr (DOMParser_parseFromString host str))
         {| flatProperties := true |})
  end.
Proof.
  unfold Formatter.fromOSM. rewrite toDom_eq. unfold lift, try_catch.
  destruct (JSON_parse host (VStr str)) as [src|e]; cbn.
  - reflexivity.
  - by rewrite !app_nil_r.
Qed.

(** ** The property rewrites of GPX import and of the exports *)

(** X16. The clean-up loop of [fromGPX] gives the same properties for every
    order in which [for ... in] hands out the keys, and visiting a key more
    than once changes nothing, as long as every key of the object is
    visited. *)
Theorem clean_feature_any_key_order (feature : Feature) (keys : list string) :
  (∀ key,
     is_Some ((<["description" := prop_get (properties feature) "desc"]>
                 (properties feature)) !! key) →
     key ∈ keys) →
  properties (Formatter.clean_feature feature) =
  foldl Formatter.strip_property
    (<["description" := prop_get (properties feature) "desc"]> (properties feature))
    keys.
Proof.
  intros Hkeys. rewrite clean_feature_properties.
  symmetry. by apply foldl_strip_property_all.
Qed.

Lemma clean_feature_any_key_order_witness :
  properties (Formatter.clean_feature (Sample.track (Some (VStr "hello")))) =
  foldl Formatter.strip_property
    (<["description" := prop_get (properties (Sample.track (Some (VStr "hello")))) "desc"]>
       (properties (Sample.track (Some (VStr "hello")))))
    ["links"; "description"; "_gpxType"; "name"; "links"; "desc"].
Proof.
  apply (clean_feature_any_key_order (Sample.track (Some (VStr "hello")))
           ["links"; "description"; "_gpxType"; "name"; "links"; "desc"]).
  intros key Hkey. apply for_in_keys_all in Hkey. vm_compute in Hkey.
  repeat (apply elem_of_cons in Hkey as [->|Hkey]; [by repeat constructor|]).
  by apply elem_of_nil in Hkey.
Defined.

Lemma lookup_filter_kept (props : gmap string value) (key : string) :
  filter kept props !! key =
  match props !! key with
  | Some v => if startsWith_underscore key || typeof_object v then None else Some v
  | None => None
  end.
Proof.
  destruct (props !! key) as [v|] eqn:Hv.
  - destruct (startsWith_underscore key || typeof_object v) eqn:Hbad.
    + apply map_lookup_filter_None. right. intros x. rewrite Hv. intros [= <-].
      unfold kept. cbn. congruence.
    + by apply map_lookup_filter_Some.
  - apply map_lookup_filter_None. by left.
Qed.

(** X17. [fromGPX] loses nothing else: apart from [description], a property
    of the converter's feature whose key does not start with an underscore
    and whose value is not of type [object] is found after the import under
    the same key with the same value, and no other key appears. *)
Theorem fromGPX_keeps_scalar_properties (host : Host) (str : string)
    (togeojson : Togeojson (Document host)) (raw : FeatureCollection)
    (feats : list Feature) :
  import_togeojson host = Normal togeojson →
  gpx togeojson (DOMParser_parseFromString host str) = Normal raw →
  features raw = Some feats →
  ∃ feats',
    (Formatter.fromGPX host str).2 = Normal {| features := Some feats' |}
    ∧ Forall2
        (λ ft ft',
          ∀ key, key ≠ "description" →
            properties ft' !! key =
            match properties ft !! key with
            | Some v =>
                if startsWith_underscore key || typeof_object v then None else Some v
            | None => None
            end)
        feats feats'.
Proof.
  intros Himport Hgpx Hfeatures.
  exists (map Formatter.clean_feature feats). split.
  - rewrite (fromGPX_completion host str togeojson raw Himport Hgpx).
    by rewrite Hfeatures.
  - apply Forall2_fmap_r, Forall_Forall2_diag, Forall_forall. intros ft _.
    unfold compose. intros key Hkey.
    by rewrite clean_feature_properties, lookup_filter_kept, lookup_insert_ne.
Qed.

Lemma fromGPX_keeps_scalar_properties_witness :
  ∃ feats',
    (Formatter.fromGPX Sample.host "described").2 = Normal {| features := Some feats' |}
    ∧ Forall2
        (λ ft ft',
          ∀ key, key ≠ "description" →
            properties ft' !! key =
            match properties ft !! key with
            | Some v =>
                if startsWith_underscore key || typeof_object v then None else Some v
            | None => None
            end)
        [Sample.track (Some (VStr "hello"))] feats'.
Proof.
  apply (fromGPX_keeps_scalar_properties Sample.host "described" Sample.togeojson
           {| features := Some [Sample.track (Some (VStr "hello"))] |}).
  - reflexivity.
  - reflexivity.
  - reflexivity.
Defined.

(** X18. The rewrite [toGPX] applies before converting ([desc] takes the
    value of [description]) and the rewrite [fromGPX] applies after
    converting fit together: applied one after the other to the same
    properties, they leave [description] with its original value when that
    value is not of type [object], they leave [desc] with that same value,
    and the result holds no bookkeeping key and no structured value.  A
    [description] of type [object] does not survive. *)
Theorem description_through_gpx_rewrites (feature : Feature) :
  let d := prop_get (properties feature) "description" in
  let props := properties (Formatter.clean_feature (Formatter.describe feature)) in
  props !! "description" = (if typeof_object d then None else Some d)
  ∧ props !! "desc" = (if typeof_object d then None else Some d)
  ∧ flat props.
Proof.
  cbv zeta.
  assert (prop_get (properties (Formatter.describe feature)) "desc"
          = prop_get (properties feature) "description") as Hdesc.
  { unfold Formatter.describe, prop_get. cbn. by rewrite lookup_insert_eq. }
  split; [|split].
  - by rewrite clean_feature_description, Hdesc.
  - rewrite clean_feature_properties, lookup_filter_kept, lookup_insert_ne by done.
    unfold Formatter.describe. cbn [properties]. by rewrite lookup_insert_eq.
  - apply clean_feature_flat.
Qed.

(** The rows of the CSV export, one per feature and in order: the
    feature's properties without [_umap_options], with the center as
    [Latitude] and [Longitude]. *)
Lemma csv_rows (umap : Umap) :
  Forall2
    (λ feature row,
      row !! "Latitude" = Some (VNum (lat (MapFeature.center feature)))
      ∧ row !! "Longitude" = Some (VNum (lng (MapFeature.center feature)))
      ∧ row !! "_umap_options" = None
      ∧ ∀ key, key ∉ ["Latitude"; "Longitude"; "_umap_options"] →
          row !! key = properties (MapFeature.toGeoJSON feature) !! key)
    (eachFeature umap) (csv_row <$> eachFeature umap).
Proof.
  apply Forall2_fmap_r, Forall_Forall2_diag, Forall_forall. intros feature _.
  unfold compose, csv_row. cbv zeta. repeat split.
  - by rewrite lookup_insert_ne, lookup_insert_eq.
  - by rewrite lookup_insert_eq.
  - by rewrite lookup_insert_ne, lookup_insert_ne, lookup_delete_eq.
  - intros key Hkey. rewrite !not_elem_of_cons in Hkey.
    destruct Hkey as (Hlat & Hlng & Hopt & _).
    by rewrite lookup_insert_ne, lookup_insert_ne, lookup_delete_ne.
Qed.

(** X19. [EXPORT_FORMATS] has exactly one [csv] entry, and its formatter
    completes normally, logs nothing, and returns what [csvFormat] makes of
    a table with one row per feature visited by [eachFeature], in order.
    Each row holds the feature's properties without [_umap_options], and its
    [Latitude] and [Longitude] are the feature's center, replacing
    properties of those names if the feature had any. *)
Theorem EXPORT_FORMATS_csv (host : Host) :
  ∃ descriptor,
    ("csv", descriptor) ∈ EXPORT_FORMATS host
    ∧ (∀ other, ("csv", other) ∈ EXPORT_FORMATS host → other = descriptor)
    ∧ ∀ umap, ∃ table,
        formatter descriptor umap = ([], Normal (csvFormat host table))
        ∧ Forall2
            (λ feature row,
              row !! "Latitude" = Some (VNum (lat (MapFeature.center feature)))
              ∧ row !! "Longitude" = Some (VNum (lng (MapFeature.center feature)))
              ∧ row !! "_umap_options" = None
              ∧ ∀ key, key ∉ ["Latitude"; "Longitude"; "_umap_options"] →
                  row !! key = properties (MapFeature.toGeoJSON feature) !! key)
            (eachFeature umap) table.
Proof.
  eexists. split; [|split].
  - unfold EXPORT_FORMATS. do 3 apply list_elem_of_further. apply list_elem_of_here.
  - intros other Hother. unfold EXPORT_FORMATS in Hother.
    repeat (apply elem_of_cons in Hother as [Hother|Hother];
            [first [discriminate Hother | by injection Hother as ->] | ]).
    by apply elem_of_nil in Hother.
  - intros umap. exists (csv_row <$> eachFeature umap).
    split; [reflexivity | apply csv_rows].
Qed.
